(** * contact-worker: the contact-form request handler of [src/index.ts]

    A shallow embedding of the worker's [fetch] handler (the revision
    with the Turnstile check and [jsonResponse]) and of the platform
    pieces it touches: JavaScript strings, JSON values, the regular
    expression of the e-mail check, the [Response] constructor, and the
    two external collaborators (the verification endpoint and the SMTP
    relay client), whose calls are logged in a trace. *)

From Stdlib Require Import List String Ascii Bool ZArith NArith Lia.
From Stdlib Require Import Floats.SpecFloat.
Import ListNotations.

Set Warnings "-register-all".

(** ** JavaScript strings

    A JavaScript string is a sequence of UTF-16 code units; [length]
    counts code units and a regular expression without the [u] flag
    consumes one code unit per character. *)

Definition code_unit := N.
Definition jsstring := list code_unit.

(** An ASCII literal of the source as a JavaScript string. *)
Definition lit (s : string) : jsstring :=
  List.map N_of_ascii (list_ascii_of_string s).

(** [a === b] on strings *)
Fixpoint str_eqb (a b : jsstring) : bool :=
  match a, b with
  | [], [] => true
  | x :: a', y :: b' => N.eqb x y && str_eqb a' b'
  | _, _ => false
  end.

(** [s.length] *)
Definition str_length (s : jsstring) : Z := Z.of_nat (List.length s).

(** ** Regular expressions

    The fragment of the pattern language that the e-mail pattern uses,
    closed under what derivatives need. *)

Module RegExp.

(** An item of a character class: the escape [\s] or a single character. *)
Inductive class_atom :=
| ClassSpace
| ClassChar (c : N).

Inductive regex :=
| Empty
| Eps
| Char (c : N)
| NegClass (items : list class_atom)
| Cat (r1 r2 : regex)
| Alt (r1 r2 : regex)
| Star (r : regex).

(** [r+] *)
Definition Plus (r : regex) : regex := Cat r (Star r).

(** The code units matched by [\s]: WhiteSpace and LineTerminator of
    the language definition (TAB, LF, VT, FF, CR, SP, NBSP, U+1680,
    U+2000..U+200A, LS, PS, U+202F, U+205F, U+3000, BOM). *)
Definition is_space (c : N) : bool :=
  ((9 <=? c) && (c <=? 13) || (c =? 32) || (c =? 160) || (c =? 5760)
   || (8192 <=? c) && (c <=? 8202) || (c =? 8232) || (c =? 8233)
   || (c =? 8239) || (c =? 8287) || (c =? 12288) || (c =? 65279))%N.

Definition atom_mem (a : class_atom) (c : N) : bool :=
  match a with
  | ClassSpace => is_space c
  | ClassChar d => N.eqb c d
  end.

Definition class_mem (items : list class_atom) (c : N) : bool :=
  existsb (fun a => atom_mem a c) items.

Fixpoint nullable (r : regex) : bool :=
  match r with
  | Empty => false
  | Eps => true
  | Char _ => false
  | NegClass _ => false
  | Cat r1 r2 => nullable r1 && nullable r2
  | Alt r1 r2 => nullable r1 || nullable r2
  | Star _ => true
  end.

Fixpoint deriv (c : N) (r : regex) : regex :=
  match r with
  | Empty => Empty
  | Eps => Empty
  | Char d => if N.eqb c d then Eps else Empty
  | NegClass items => if class_mem items c then Empty else Eps
  | Cat r1 r2 =>
      if nullable r1
      then Alt (Cat (deriv c r1) r2) (deriv c r2)
      else Cat (deriv c r1) r2
  | Alt r1 r2 => Alt (deriv c r1) (deriv c r2)
  | Star r1 => Cat (deriv c r1) (Star r1)
  end.

(** [/^r$/.test(s)]: with both anchors and no flags the pattern has to
    match the whole input. *)
Fixpoint test_anchored (r : regex) (s : jsstring) : bool :=
  match s with
  | [] => nullable r
  | c :: s' => test_anchored (deriv c r) s'
  end.

(** The words of a pattern.  The pattern has no back-reference,
    look-around or flag, so an anchored [test] succeeds exactly on
    them. *)
Inductive matches : regex -> jsstring -> Prop :=
| MEps : matches Eps []
| MChar c : matches (Char c) [c]
| MNegClass items c : class_mem items c = false -> matches (NegClass items) [c]
| MCat r1 r2 s1 s2 :
    matches r1 s1 -> matches r2 s2 -> matches (Cat r1 r2) (s1 ++ s2)
| MAltL r1 r2 s : matches r1 s -> matches (Alt r1 r2) s
| MAltR r1 r2 s : matches r2 s -> matches (Alt r1 r2) s
| MStarNil r : matches (Star r) []
| MStarApp r s1 s2 :
    matches r s1 -> matches (Star r) s2 -> matches (Star r) (s1 ++ s2).

End RegExp.

(** [const emailRegex = /^[^\s@]+@[^\s@]+\.[^\s@]+$/] (without the
    anchors, which [RegExp.test_anchored] accounts for). *)
Definition not_space_or_at : RegExp.regex :=
  RegExp.NegClass [RegExp.ClassSpace; RegExp.ClassChar 64].

Definition emailRegex : RegExp.regex :=
  RegExp.Cat (RegExp.Plus not_space_or_at)
    (RegExp.Cat (RegExp.Char 64)
       (RegExp.Cat (RegExp.Plus not_space_or_at)
          (RegExp.Cat (RegExp.Char 46) (RegExp.Plus not_space_or_at)))).

(** [emailRegex.test(s)] *)
Definition emailRegex_test (s : jsstring) : bool :=
  RegExp.test_anchored emailRegex s.

(** ** JSON values

    What [request.json()] and [turnstileRes.json()] produce.  Numbers
    are IEEE doubles; an object keeps its fields in insertion order. *)

Inductive json :=
| JNull
| JBool (b : bool)
| JNumber (x : spec_float)
| JString (s : jsstring)
| JArray (items : list json)
| JObject (fields : list (jsstring * json)).

(** The result of a property read: [None] is [undefined]. *)
Definition value := option json.

Fixpoint assoc (k : jsstring) (fields : list (jsstring * json)) : value :=
  match fields with
  | [] => None
  | (k', v) :: rest => if str_eqb k k' then Some v else assoc k rest
  end.

(** ToBoolean: [undefined], [null], [false], [0], [-0], [NaN] and the
    empty string are falsy. *)
Definition truthy (v : value) : bool :=
  match v with
  | None => false
  | Some JNull => false
  | Some (JBool b) => b
  | Some (JNumber (S754_zero _)) => false
  | Some (JNumber S754_nan) => false
  | Some (JNumber _) => true
  | Some (JString []) => false
  | Some (JString (_ :: _)) => true
  | Some (JArray _) => true
  | Some (JObject _) => true
  end.

(** [typeof v === 'string'], with the string when it is one. *)
Definition as_string (v : value) : option jsstring :=
  match v with
  | Some (JString s) => Some s
  | _ => None
  end.

(** ** Exceptions, external calls and the trace monad *)

Inductive error :=
| TypeError
| SyntaxError
| Failure (msg : string).

Inductive completion (A : Type) :=
| Normal (a : A)
| Throw (e : error).

Arguments Normal {A} a.
Arguments Throw {A} e.

(** [new URLSearchParams({...})] as the body of the verification call. *)
Record RequestInit := {
  init_method : string;
  init_body : list (string * jsstring)
}.

Record ConnectOptions := {
  credentials_username : jsstring;
  credentials_password : jsstring;
  authType : string;
  host : string;
  port : Z;
  secure : bool
}.

Record Address := { addr_name : string; addr_email : string }.

Record EmailOptions := {
  mail_from : Address;
  mail_to : Address;
  mail_subject : jsstring;
  mail_text : jsstring;
  mail_html : jsstring
}.

(** One entry per call that leaves the worker. *)
Inductive event :=
| EvFetch (url : string) (init : RequestInit)
| EvConnect (options : ConnectOptions)
| EvSend (mail : EmailOptions)
| EvClose.

(** The objects the collaborators hand back, by what the handler can
    observe of them. *)
Record FetchResponse := { res_json : completion json }.
Record Mailer := { mailer_send : EmailOptions -> completion unit }.

(** The outside world: each call returns normally or throws. *)
Record World := {
  global_fetch : string -> RequestInit -> completion FetchResponse;
  WorkerMailer_connect : ConnectOptions -> completion Mailer
}.

(** A computation logs its external calls and ends normally or by a
    throw. *)
Definition M (A : Type) : Type := list event -> completion A * list event.

Definition ret {A} (a : A) : M A := fun tr => (Normal a, tr).

Definition throw {A} (e : error) : M A := fun tr => (Throw e, tr).

Definition bind {A B} (m : M A) (k : A -> M B) : M B :=
  fun tr =>
    match m tr with
    | (Normal a, tr') => k a tr'
    | (Throw e, tr') => (Throw e, tr')
    end.

(** [try { m } catch (err) { h err }] *)
Definition try_catch {A} (m : M A) (h : error -> M A) : M A :=
  fun tr =>
    match m tr with
    | (Normal a, tr') => (Normal a, tr')
    | (Throw e, tr') => h e tr'
    end.

(** An external call: log it, then continue with its outcome. *)
Definition call {A} (ev : event) (outcome : completion A) : M A :=
  fun tr => (outcome, tr ++ [ev]).

Definition run {A} (m : M A) : completion A * list event := m [].

Declare Scope js_scope.
Delimit Scope js_scope with js.
Notation "x <- m ;; k" := (bind m (fun x => k))
  (at level 61, m at next level, right associativity) : js_scope.
Notation "m ;;; k" := (bind m (fun _ => k))
  (at level 61, right associativity) : js_scope.
Open Scope js_scope.

(** ** The platform: requests, responses, property reads *)

(** A request, by what the handler reads of it: its method and the
    outcome of [request.json()] (which throws on a body that is not
    JSON). *)
Record Request := {
  method : string;
  request_json : completion json
}.

(** [interface Env] *)
Record Env := {
  TURNSTILE_SECRET : jsstring;
  pass : jsstring
}.

(** A response body: a literal text or [JSON.stringify(v)], kept as the
    value that is serialised. *)
Inductive body_init :=
| BodyText (s : string)
| JSON_stringify (v : json).

Record Response := {
  status : Z;
  headers : list (string * string);
  body : option body_init
}.

Definition lower (a : ascii) : ascii :=
  let n := nat_of_ascii a in
  if (65 <=? n)%nat && (n <=? 90)%nat then ascii_of_nat (n + 32) else a.

Fixpoint lowercase (s : string) : string :=
  match s with
  | EmptyString => EmptyString
  | String a s' => String (lower a) (lowercase s')
  end.

(** Header names compare without regard to case. *)
Definition has_header (name : string) (hs : list (string * string)) : bool :=
  existsb (fun h => String.eqb (lowercase (fst h)) (lowercase name)) hs.

(** [new Response(body, { status, headers })]: the status defaults to
    200, and a string body brings a text/plain [Content-Type] when the
    headers given do not name one. *)
Definition Response_new (b : option body_init) (st : option Z)
    (hs : list (string * string)) : Response :=
  {| status := match st with Some n => n | None => 200%Z end;
     headers :=
       match b with
       | Some _ =>
           if has_header "Content-Type" hs then hs
           else hs ++ [("content-type", "text/plain;charset=UTF-8")%string]
       | None => hs
       end;
     body := b |}.

(** [v.k] for the keys the handler reads ([name], [email], [message],
    [token], [success]): an object yields its own field or [undefined];
    primitives and arrays inherit no property of these names. *)
Definition field (v : json) (k : string) : value :=
  match v with
  | JObject fields => assoc (lit k) fields
  | _ => None
  end.

(** The read itself: a property read of [null] throws a TypeError. *)
Definition prop (v : json) (k : string) : M value :=
  match v with
  | JNull => throw TypeError
  | _ => ret (field v k)
  end.

(** [await p] for a promise that is already settled. *)
Definition await {A} (outcome : completion A) : M A :=
  fun tr => (outcome, tr).

(** [{ error: msg }] *)
Definition error_body (msg : string) : json :=
  JObject [(lit "error", JString (lit msg))].

(** ** The worker *)

(** [function jsonResponse(body, status)] *)
Definition jsonResponse (b : json) (st : Z) : Response :=
  Response_new (Some (JSON_stringify b)) (Some st)
    [("Content-Type", "application/json")%string].

Definition siteverify : string :=
  "https://challenges.cloudflare.com/turnstile/v0/siteverify".

(** The second argument of the verification call. *)
Definition turnstile_init (env : Env) (token : jsstring) : RequestInit :=
  {| init_method := "POST";
     init_body := [("secret"%string, TURNSTILE_SECRET env);
                   ("response"%string, token)] |}.

(** The argument of [WorkerMailer.connect]. *)
Definition mailer_options (env : Env) : ConnectOptions :=
  {| credentials_username := lit "feedback@beroea.tech";
     credentials_password := pass env;
     authType := "plain";
     host := "smtp.migadu.com";
     port := 465;
     secure := true |}.

(** The argument of [mailer.send]; the template literals splice the
    validated strings in as they are. *)
Definition feedback_mail (name email message : jsstring) : EmailOptions :=
  {| mail_from := {| addr_name := "Feedback";
                     addr_email := "feedback@beroea.tech" |};
     mail_to := {| addr_name := "Jamal"; addr_email := "jamal@beroea.tech" |};
     mail_subject := lit "Feedback from " ++ name;
     mail_text := lit "Message: " ++ message ++ [32; 10; 10; 32]%N ++ email;
     mail_html := lit "<p>Feedback content:</p> <p>" ++ message
                  ++ lit "</p> <p>Sender: " ++ email ++ lit "</p>" |}.

(** The [try] block from the verification call on.  [mailer.close()]
    returns a promise that the handler does not await, so whatever
    becomes of it cannot reach the block. *)
Definition verify_and_send (data : json) (name email message token : jsstring)
    (env : Env) (w : World) : M Response :=
  turnstileRes <- call (EvFetch siteverify (turnstile_init env token))
                    (global_fetch w siteverify (turnstile_init env token)) ;;
  outcome <- await (res_json turnstileRes) ;;
  success <- prop outcome "success" ;;
  if negb (truthy success) then
    ret (jsonResponse (error_body "Turnstile verification failed") 403)
  else
  mailer <- call (EvConnect (mailer_options env))
              (WorkerMailer_connect w (mailer_options env)) ;;
  call (EvSend (feedback_mail name email message))
    (mailer_send mailer (feedback_mail name email message)) ;;;
  call EvClose (Normal tt) ;;;
  ret (Response_new
         (Some (JSON_stringify
                  (JObject [(lit "success", JBool true);
                            (lit "received", data)])))
         (Some 200%Z)
         [("Content-Type", "application/json");
          ("Access-Control-Allow-Origin", "*")]%string).

(** The body of the [try] block of the POST branch. *)
Definition post_try (request : Request) (env : Env) (w : World) : M Response :=
  data <- await (request_json request) ;;
  name <- prop data "name" ;;
  if negb (truthy name) then
    ret (jsonResponse (error_body "Missing required fields") 400)
  else
  email <- prop data "email" ;;
  if negb (truthy email) then
    ret (jsonResponse (error_body "Missing required fields") 400)
  else
  message <- prop data "message" ;;
  if negb (truthy message) then
    ret (jsonResponse (error_body "Missing required fields") 400)
  else
  token <- prop data "token" ;;
  match as_string name, as_string email, as_string message, as_string token with
  | Some name, Some email, Some message, Some token =>
      if (str_length name >? 100)%Z || (str_length message >? 1000)%Z then
        ret (jsonResponse (error_body "Input too long") 400)
      else
      if negb (emailRegex_test email) then
        ret (jsonResponse (error_body "Invalid email format") 400)
      else
        verify_and_send data name email message token env w
  | _, _, _, _ =>
      ret (jsonResponse (error_body "Invalid field types") 400)
  end.

(** [async fetch(request, env, ctx)] ([ctx] is not used). *)
Definition fetch (request : Request) (env : Env) (w : World) : M Response :=
  if String.eqb (method request) "OPTIONS" then
    let allowedOrigin := "https://beroea.tech"%string in
    ret (Response_new None None
           [("Access-Control-Allow-Origin", allowedOrigin);
            ("Access-Control-Allow-Methods", "POST, OPTIONS");
            ("Access-Control-Allow-Headers", "Content-Type")]%string)
  else if String.eqb (method request) "POST" then
    try_catch (post_try request env w)
      (fun err =>
         ret (Response_new (Some (JSON_stringify (error_body "Bad Request")))
                (Some 400%Z) [("Content-Type", "application/json")]%string))
  else
    ret (Response_new (Some (BodyText "Method Not Allowed")) (Some 405%Z) []).

(** ** The vocabulary of the specification *)

(** A character that is neither whitespace nor ['@']. *)
Definition plain_char (c : N) : bool :=
  negb (RegExp.is_space c) && negb (N.eqb c 64).

(** One or more such characters. *)
Definition plain_run (s : jsstring) : Prop :=
  s <> [] /\ forallb plain_char s = true.

(** The accepted shape in the words of the specification: a run, ['@'],
    a run, ['.'], a run. *)
Definition email_shape (s : jsstring) : Prop :=
  exists l d t,
    s = l ++ [64%N] ++ d ++ [46%N] ++ t
    /\ plain_run l /\ plain_run d /\ plain_run t.

(** [data.k] is the string [s]. *)
Definition string_field (data : json) (k : string) (s : jsstring) : Prop :=
  field data k = Some (JString s).

(** A submission that passes every validation step: [name], [email]
    and [message] are non-empty strings, [token] is a string, the
    lengths are within bounds and the e-mail check accepts [email]. *)
Definition passes_validation (data : json)
    (name email message token : jsstring) : Prop :=
  string_field data "name" name /\ name <> []
  /\ string_field data "email" email /\ email <> []
  /\ string_field data "message" message /\ message <> []
  /\ string_field data "token" token
  /\ (str_length name <= 100)%Z /\ (str_length message <= 1000)%Z
  /\ emailRegex_test email = true.

(** The four objections of the validation steps. *)
Inductive objection :=
| MissingFields
| InvalidTypes
| TooLong
| BadEmail.

Inductive verdict :=
| Rejected (why : objection)
| Valid (name email message token : jsstring).

(** The validation steps as a decision on the fields of the parsed
    body. *)
Definition validate (data : json) : verdict :=
  if truthy (field data "name") && truthy (field data "email")
     && truthy (field data "message")
  then
    match as_string (field data "name"), as_string (field data "email"),
          as_string (field data "message"), as_string (field data "token") with
    | Some name, Some email, Some message, Some token =>
        if (str_length name >? 100)%Z || (str_length message >? 1000)%Z
        then Rejected TooLong
        else if emailRegex_test email then Valid name email message token
        else Rejected BadEmail
    | _, _, _, _ => Rejected InvalidTypes
    end
  else Rejected MissingFields.

(** The responses of the handler, header by header. *)
Definition error_response (st : Z) (msg : string) : Response :=
  {| status := st;
     headers := [("Content-Type", "application/json")%string];
     body := Some (JSON_stringify (JObject [(lit "error", JString (lit msg))])) |}.

Definition success_response (data : json) : Response :=
  {| status := 200;
     headers := [("Content-Type", "application/json");
                 ("Access-Control-Allow-Origin", "*")]%string;
     body := Some (JSON_stringify
                     (JObject [(lit "success", JBool true);
                               (lit "received", data)])) |}.

Definition preflight_response : Response :=
  {| status := 200;
     headers := [("Access-Control-Allow-Origin", "https://beroea.tech");
                 ("Access-Control-Allow-Methods", "POST, OPTIONS");
                 ("Access-Control-Allow-Headers", "Content-Type")]%string;
     body := None |}.

Definition method_not_allowed : Response :=
  {| status := 405;
     headers := [("content-type", "text/plain;charset=UTF-8")%string];
     body := Some (BodyText "Method Not Allowed") |}.

(** What the validation steps answer to a submission they reject. *)
Definition rejection (why : objection) : Response :=
  match why with
  | MissingFields => error_response 400 "Missing required fields"
  | InvalidTypes => error_response 400 "Invalid field types"
  | TooLong => error_response 400 "Input too long"
  | BadEmail => error_response 400 "Invalid email format"
  end.

(** Reading [v.k] yields the value [x]. *)
Definition reads (v : json) (k : string) (x : value) : Prop :=
  run (prop v k) = (Normal x, []).

(** One of [name], [email], [message] is absent from the body or has
    a falsy value. *)
Definition missing_field (data : json) : Prop :=
  truthy (field data "name") = false
  \/ truthy (field data "email") = false
  \/ truthy (field data "message") = false.

(** The external calls of one request, in the order of the source. *)
Definition calls (env : Env) (name email message token : jsstring)
  : list event :=
  [EvFetch siteverify (turnstile_init env token);
   EvConnect (mailer_options env);
   EvSend (feedback_mail name email message);
   EvClose].

(** The ways the [try] block can end by a throw, with the calls made
    until then: parsing the body, reading a field of a [null] body, the
    verification call, reading its reply, and the relay's connect and
    send. *)
Inductive raised (request : Request) (env : Env) (w : World)
  : error -> list event -> Prop :=
| RaisedParse e :
    request_json request = Throw e ->
    raised request env w e []
| RaisedNullBody :
    request_json request = Normal JNull ->
    raised request env w TypeError []
| RaisedFetch data name email message token e :
    request_json request = Normal data ->
    passes_validation data name email message token ->
    global_fetch w siteverify (turnstile_init env token) = Throw e ->
    raised request env w e (firstn 1 (calls env name email message token))
| RaisedReply data name email message token res e :
    request_json request = Normal data ->
    passes_validation data name email message token ->
    global_fetch w siteverify (turnstile_init env token) = Normal res ->
    res_json res = Throw e ->
    raised request env w e (firstn 1 (calls env name email message token))
| RaisedNullReply data name email message token res :
    request_json request = Normal data ->
    passes_validation data name email message token ->
    global_fetch w siteverify (turnstile_init env token) = Normal res ->
    res_json res = Normal JNull ->
    raised request env w TypeError
      (firstn 1 (calls env name email message token))
| RaisedConnect data name email message token res outcome e :
    request_json request = Normal data ->
    passes_validation data name email message token ->
    global_fetch w siteverify (turnstile_init env token) = Normal res ->
    res_json res = Normal outcome -> outcome <> JNull ->
    truthy (field outcome "success") = true ->
    WorkerMailer_connect w (mailer_options env) = Throw e ->
    raised request env w e (firstn 2 (calls env name email message token))
| RaisedSend data name email message token res outcome mailer e :
    request_json request = Normal data ->
    passes_validation data name email message token ->
    global_fetch w siteverify (turnstile_init env token) = Normal res ->
    res_json res = Normal outcome -> outcome <> JNull ->
    truthy (field outcome "success") = true ->
    WorkerMailer_connect w (mailer_options env) = Normal mailer ->
    mailer_send mailer (feedback_mail name email message) = Throw e ->
    raised request env w e (firstn 3 (calls env name email message token)).

(** The answers of the handler and the calls behind each. *)
Inductive answer (request : Request) (env : Env)
  : Response -> list event -> Prop :=
| AnswerPreflight :
    method request = "OPTIONS"%string ->
    answer request env preflight_response []
| AnswerNotAllowed :
    method request <> "OPTIONS"%string -> method request <> "POST"%string ->
    answer request env method_not_allowed []
| AnswerRejected msg :
    method request = "POST"%string ->
    answer request env (error_response 400 msg) []
| AnswerFailed name email message token n :
    method request = "POST"%string -> (1 <= n <= 3)%nat ->
    answer request env (error_response 400 "Bad Request")
      (firstn n (calls env name email message token))
| AnswerRefused name email message token :
    method request = "POST"%string ->
    answer request env (error_response 403 "Turnstile verification failed")
      (firstn 1 (calls env name email message token))
| AnswerSent data name email message token :
    method request = "POST"%string ->
    answer request env (success_response data)
      (calls env name email message token).

(** A CORS header is one whose name starts with [Access-Control-]. *)
Definition is_cors_header (h : string * string) : bool :=
  String.prefix "access-control-" (lowercase (fst h)).

Definition has_cors_headers (r : Response) : bool :=
  existsb is_cors_header (headers r).

(** [headers.get(name)] *)
Fixpoint get_header (name : string) (hs : list (string * string))
  : option string :=
  match hs with
  | [] => None
  | (k, v) :: rest =>
      if String.eqb (lowercase k) (lowercase name) then Some v
      else get_header name rest
  end.

(** [body.get(name)] on the form fields of the verification call. *)
Fixpoint form_get (name : string) (form : list (string * jsstring))
  : option jsstring :=
  match form with
  | [] => None
  | (k, v) :: rest => if String.eqb k name then Some v else form_get name rest
  end.

(** What a call carries of the configuration: the verification call
    goes to the fixed endpoint with the secret of the environment; the
    relay is opened under the fixed account name with the password of
    the environment. *)
Definition configured (env : Env) (ev : event) : Prop :=
  match ev with
  | EvFetch url init =>
      url = siteverify
      /\ form_get "secret" (init_body init) = Some (TURNSTILE_SECRET env)
  | EvConnect options =>
      credentials_username options = lit "feedback@beroea.tech"
      /\ credentials_password options = pass env
  | EvSend _ => True
  | EvClose => True
  end.

(** A value computed from the environment really depends on it. *)
Definition env_sourced {A : Type} (f : Env -> A) : Prop :=
  exists env1 env2 : Env, f env1 <> f env2.

(** ** Sample requests and worlds *)

Definition post (reply : completion json) : Request :=
  {| method := "POST"; request_json := reply |}.

Definition options_request : Request :=
  {| method := "OPTIONS"; request_json := Throw SyntaxError |}.

Definition submission (name email message token : jsstring) : json :=
  JObject [(lit "name", JString name);
           (lit "email", JString email);
           (lit "message", JString message);
           (lit "token", JString token)].

Definition ana : json :=
  submission (lit "Ana") (lit "ana@example.com") (lit "Hello") (lit "tok123").

(** A name of 101 characters. *)
Definition long_name : jsstring := repeat 97%N 101.

(** A submission without a [message] field. *)
Definition no_message : json :=
  JObject [(lit "name", JString (lit "Ana"));
           (lit "email", JString (lit "ana@example.com"));
           (lit "token", JString (lit "tok123"))].

(** A submission without a [token] field. *)
Definition tokenless : json :=
  JObject [(lit "name", JString (lit "Ana"));
           (lit "email", JString (lit "ana@example.com"));
           (lit "message", JString (lit "Hello"))].

Definition sample_env : Env :=
  {| TURNSTILE_SECRET := lit "0x4AAA-secret"; pass := lit "hunter2" |}.

(** A relay client that accepts ([Normal tt]) or refuses every message. *)
Definition relay (sent : completion unit) : completion Mailer :=
  Normal {| mailer_send := fun _ => sent |}.

(** A world whose verification endpoint answers [outcome] and whose
    relay connects as [connected]. *)
Definition world (outcome : completion json)
    (connected : completion Mailer) : World :=
  {| global_fetch := fun _ _ => Normal {| res_json := outcome |};
     WorkerMailer_connect := fun _ => connected |}.

Definition verified : completion json :=
  Normal (JObject [(lit "success", JBool true)]).

Definition unverified : completion json :=
  Normal (JObject [(lit "success", JBool false);
                   (lit "error-codes",
                    JArray [JString (lit "invalid-input-response")])]).

Definition happy_world : World := world verified (relay (Normal tt)).

Definition other_env : Env :=
  {| TURNSTILE_SECRET := lit "1x0000-other"; pass := lit "correct horse" |}.

(** ** The exchanges with the collaborators, read off the world *)

(** What the verification exchange yields: the [success] flag of the
    reply, or the exception of the call, of reading the reply, or of
    reading the flag of a [null] reply. *)
Definition verification (env : Env) (w : World) (token : jsstring)
  : completion value :=
  match global_fetch w siteverify (turnstile_init env token) with
  | Throw e => Throw e
  | Normal res =>
      match res_json res with
      | Throw e => Throw e
      | Normal JNull => Throw TypeError
      | Normal outcome => Normal (field outcome "success")
      end
  end.

(** The steps of a run from the first call on, each with the calls
    logged when the run stops there. *)
Inductive delivery (env : Env) (w : World) (data : json)
    (name email message token : jsstring)
  : Response -> list event -> Prop :=
| VerificationFailed e :
    verification env w token = Throw e ->
    delivery env w data name email message token
      (error_response 400 "Bad Request")
      (firstn 1 (calls env name email message token))
| VerificationRefused flag :
    verification env w token = Normal flag -> truthy flag = false ->
    delivery env w data name email message token
      (error_response 403 "Turnstile verification failed")
      (firstn 1 (calls env name email message token))
| ConnectFailed flag e :
    verification env w token = Normal flag -> truthy flag = true ->
    WorkerMailer_connect w (mailer_options env) = Throw e ->
    delivery env w data name email message token
      (error_response 400 "Bad Request")
      (firstn 2 (calls env name email message token))
| SendFailed flag mailer e :
    verification env w token = Normal flag -> truthy flag = true ->
    WorkerMailer_connect w (mailer_options env) = Normal mailer ->
    mailer_send mailer (feedback_mail name email message) = Throw e ->
    delivery env w data name email message token
      (error_response 400 "Bad Request")
      (firstn 3 (calls env name email message token))
| Delivered flag mailer :
    verification env w token = Normal flag -> truthy flag = true ->
    WorkerMailer_connect w (mailer_options env) = Normal mailer ->
    mailer_send mailer (feedback_mail name email message) = Normal tt ->
    delivery env w data name email message token
      (success_response data) (calls env name email message token).

(** Every way a request is handled, with its answer and its calls. *)
Inductive handled (request : Request) (env : Env) (w : World)
  : Response -> list event -> Prop :=
| HandledPreflight :
    method request = "OPTIONS"%string ->
    handled request env w preflight_response []
| HandledNotAllowed :
    method request <> "OPTIONS"%string -> method request <> "POST"%string ->
    handled request env w method_not_allowed []
| HandledUnparsed e :
    method request = "POST"%string ->
    request_json request = Throw e ->
    handled request env w (error_response 400 "Bad Request") []
| HandledNullBody :
    method request = "POST"%string ->
    request_json request = Normal JNull ->
    handled request env w (error_response 400 "Bad Request") []
| HandledRejected data why :
    method request = "POST"%string ->
    request_json request = Normal data -> data <> JNull ->
    validate data = Rejected why ->
    handled request env w (rejection why) []
| HandledValid data name email message token r tr :
    method request = "POST"%string ->
    request_json request = Normal data ->
    passes_validation data name email message token ->
    delivery env w data name email message token r tr ->
    handled request env w r tr.

(** No character of the string is whitespace. *)
Definition no_whitespace (s : jsstring) : Prop :=
  forallb (fun c => negb (RegExp.is_space c)) s = true.

(** The number of ['@'] in the string. *)
Definition count_at (s : jsstring) : nat := count_occ N.eq_dec s 64%N.

(** The part after the ['@'] of an accepted address: characters that
    are neither whitespace nor ['@'], with a ['.'] that is neither the
    first nor the last of them. *)
Definition dotted_domain (dom : jsstring) : Prop :=
  forallb plain_char dom = true
  /\ exists i, (0 < i)%nat /\ (S i < List.length dom)%nat
              /\ nth_error dom i = Some 46%N.

(** A call to the relay, as opposed to the verification service. *)
Definition relay_event (ev : event) : bool :=
  match ev with
  | EvFetch _ _ => false
  | EvConnect _ => true
  | EvSend _ => true
  | EvClose => true
  end.

(** A parsed body that is an array, a string, a number or a boolean. *)
Definition non_object (data : json) : bool :=
  match data with
  | JNull => false
  | JObject _ => false
  | JBool _ => true
  | JNumber _ => true
  | JString _ => true
  | JArray _ => true
  end.

(** A submission whose [name] is [true]. *)
Definition boolean_name : json :=
  JObject [(lit "name", JBool true);
           (lit "email", JString (lit "ana@example.com"));
           (lit "message", JString (lit "Hello"));
           (lit "token", JString (lit "tok123"))].

(** ** The first revision of the handler

    [src/index.ts] opens with an earlier revision of the worker (lines
    17 to 84): no verification call, no type, length or e-mail check,
    and the fields spliced into the mail by template literals whatever
    their type. *)

Module FirstRevision.

Section Conversions.

(** [Number::toString], the platform's rendering of a double. *)
Variable Number_toString : spec_float -> jsstring.

(** [ToString] on a parsed value.  An array is joined with commas, its
    [null] elements rendered empty; an object answers
    [[object Object]] through [Object.prototype.toString], unless a
    field of its own named [toString] hides that method: the field is
    not callable, [valueOf] yields no primitive, and the conversion
    throws a TypeError. *)
Fixpoint ToString (v : json) : completion jsstring :=
  match v with
  | JNull => Normal (lit "null")
  | JBool true => Normal (lit "true")
  | JBool false => Normal (lit "false")
  | JNumber x => Normal (Number_toString x)
  | JString s => Normal s
  | JArray items =>
      (fix join (first : bool) (items : list json) : completion jsstring :=
         match items with
         | [] => Normal []
         | item :: rest =>
             match match item with
                   | JNull => Normal []
                   | _ => ToString item
                   end
             with
             | Throw e => Throw e
             | Normal s =>
                 match join false rest with
                 | Throw e => Throw e
                 | Normal t =>
                     Normal ((if first then [] else [44%N]) ++ s ++ t)
                 end
             end
         end) true items
  | JObject fields =>
      match assoc (lit "toString") fields with
      | Some _ => Throw TypeError
      | None => Normal (lit "[object Object]")
      end
  end.

(** A substitution [${v}] of a template literal. *)
Definition template (v : value) : M jsstring :=
  match v with
  | None => ret (lit "undefined")
  | Some j => await (ToString j)
  end.

(** The body of the [try] block of the POST branch.  The substitutions
    of the mail are evaluated once the relay is connected, in the order
    of the source. *)
Definition post_try (request : Request) (env : Env) (w : World) : M Response :=
  data <- await (request_json request) ;;
  name <- prop data "name" ;;
  if negb (truthy name) then
    ret (Response_new
           (Some (JSON_stringify (error_body "Missing required fields")))
           (Some 400%Z) [("Content-Type", "application/json")]%string)
  else
  email <- prop data "email" ;;
  if negb (truthy email) then
    ret (Response_new
           (Some (JSON_stringify (error_body "Missing required fields")))
           (Some 400%Z) [("Content-Type", "application/json")]%string)
  else
  message <- prop data "message" ;;
  if negb (truthy message) then
    ret (Response_new
           (Some (JSON_stringify (error_body "Missing required fields")))
           (Some 400%Z) [("Content-Type", "application/json")]%string)
  else
  mailer <- call (EvConnect (mailer_options env))
              (WorkerMailer_connect w (mailer_options env)) ;;
  subject_name <- template name ;;
  text_message <- template message ;;
  text_email <- template email ;;
  html_message <- template message ;;
  html_email <- template email ;;
  let mail :=
    {| mail_from := {| addr_name := "Feedback";
                       addr_email := "feedback@beroea.tech" |};
       mail_to := {| addr_name := "Jamal"; addr_email := "jamal@beroea.tech" |};
       mail_subject := lit "Feedback from " ++ subject_name;
       mail_text := lit "Message: " ++ text_message ++ [32; 10; 10; 32]%N
                    ++ text_email;
       mail_html := lit "<p>Feedback content:</p> <p>" ++ html_message
                    ++ lit "</p> <p>Sender: " ++ html_email ++ lit "</p>" |} in
  call (EvSend mail) (mailer_send mailer mail) ;;;
  call EvClose (Normal tt) ;;;
  ret (Response_new
         (Some (JSON_stringify
                  (JObject [(lit "success", JBool true);
                            (lit "received", data)])))
         (Some 200%Z)
         [("Content-Type", "application/json");
          ("Access-Control-Allow-Origin", "*")]%string).

(** [async fetch(request, env, ctx)] *)
Definition fetch (request : Request) (env : Env) (w : World) : M Response :=
  if String.eqb (method request) "OPTIONS" then
    ret (Response_new None None
           [("Access-Control-Allow-Origin", "*");
            ("Access-Control-Allow-Methods", "POST, OPTIONS");
            ("Access-Control-Allow-Headers", "Content-Type")]%string)
  else if String.eqb (method request) "POST" then
    try_catch (post_try request env w)
      (fun err =>
         ret (Response_new (Some (JSON_stringify (error_body "Bad Request")))
                (Some 400%Z) [("Content-Type", "application/json")]%string))
  else
    ret (Response_new (Some (BodyText "Method Not Allowed")) (Some 405%Z) []).

End Conversions.

End FirstRevision.

(** The three fields of a body as the first revision reads them: each
    present with a truthy value. *)
Definition truthy_fields (data : json) (name email message : json) : Prop :=
  field data "name" = Some name /\ truthy (Some name) = true
  /\ field data "email" = Some email /\ truthy (Some email) = true
  /\ field data "message" = Some message /\ truthy (Some message) = true.

(** A rendering of numbers for the sample runs: right on the zeros,
    the infinities and NaN; the other doubles, which the sample runs
    do not hold, get a placeholder. *)
Definition sample_rendering (x : spec_float) : jsstring :=
  match x with
  | S754_zero _ => lit "0"
  | S754_infinity false => lit "Infinity"
  | S754_infinity true => lit "-Infinity"
  | S754_nan => lit "NaN"
  | S754_finite _ _ _ => lit "1"
  end.

(** A submission whose name is [true], whose message is the array
    [["a", null, ["b", 0]]] and which carries no token. *)
Definition untyped_submission : json :=
  JObject [(lit "name", JBool true);
           (lit "email", JString (lit "not an address"));
           (lit "message",
            JArray [JString (lit "a"); JNull;
                    JArray [JString (lit "b"); JNumber (S754_zero false)]])].

(** A submission whose name is an object with a field named
    [toString]. *)
Definition masked_name : json :=
  JObject [(lit "name", JObject [(lit "toString", JNull)]);
           (lit "email", JString (lit "ana@example.com"));
           (lit "message", JString (lit "Hello"))].

(** The answers that do not depend on the request body. *)
Definition fixed_answers : list Response :=
  [preflight_response;
   method_not_allowed;
   error_response 400 "Missing required fields";
   error_response 400 "Invalid field types";
   error_response 400 "Input too long";
   error_response 400 "Invalid email format";
   error_response 403 "Turnstile verification failed";
   error_response 400 "Bad Request"].

(** * Properties *)

(** ** The derivative matcher decides the words of a pattern *)

Section RegExpFacts.

Import RegExp.

Lemma matches_nil_nullable r s : matches r s -> s = [] -> nullable r = true.
Proof.
  induction 1 as [| | |r1 r2 s1 s2 _ IH1 _ IH2| | | |]; intros E;
    try discriminate; simpl; auto.
  - apply app_eq_nil in E as [-> ->]. now rewrite IH1, IH2.
  - now rewrite IHmatches.
  - rewrite IHmatches by assumption. apply orb_true_r.
Qed.

Lemma nullable_matches_nil r : nullable r = true -> matches r [].
Proof.
  induction r; simpl; intros E; try discriminate.
  - constructor.
  - apply andb_prop in E as [E1 E2].
    change (@nil code_unit) with (@nil code_unit ++ []). constructor; auto.
  - apply orb_prop in E as [E|E]; [apply MAltL | apply MAltR]; auto.
  - constructor.
Qed.

Lemma matches_cat_cons r1 r2 c s :
  matches (Cat r1 r2) (c :: s) ->
  (exists s1 s2, s = s1 ++ s2 /\ matches r1 (c :: s1) /\ matches r2 s2)
  \/ (matches r1 [] /\ matches r2 (c :: s)).
Proof.
  intros H. remember (Cat r1 r2) as r eqn:Er. remember (c :: s) as w eqn:Ew.
  destruct H as [| | |r1' r2' s1 s2 H1 H2| | | |]; try discriminate.
  injection Er as -> ->.
  destruct s1 as [|c1 s1]; simpl in Ew.
  - right. subst. auto.
  - left. injection Ew as -> <-. eauto.
Qed.

Lemma matches_star_cons r c s :
  matches (Star r) (c :: s) ->
  exists s1 s2, s = s1 ++ s2 /\ matches r (c :: s1) /\ matches (Star r) s2.
Proof.
  intros H. remember (Star r) as r' eqn:Er. remember (c :: s) as w eqn:Ew.
  revert s Ew.
  induction H as [| | | | | | |r0 s1 s2 H1 _ H2 IH2]; intros s' Ew;
    try discriminate.
  injection Er as ->.
  destruct s1 as [|c1 s1]; simpl in Ew.
  - apply IH2; auto.
  - injection Ew as -> <-. eauto.
Qed.

Lemma deriv_sound c r : forall s, matches (deriv c r) s -> matches r (c :: s).
Proof.
  induction r as [| |d|items|r1 IH1 r2 IH2|r1 IH1 r2 IH2|r1 IH1];
    simpl; intros s H.
  - inversion H.
  - inversion H.
  - destruct (N.eqb_spec c d) as [->|_]; inversion H; subst. constructor.
  - destruct (class_mem items c) eqn:E; inversion H; subst. now constructor.
  - destruct (nullable r1) eqn:E.
    + inversion H as [| | | |? ? ? Hl|? ? ? Hr| |]; subst.
      * inversion Hl as [| | |? ? s1 s2 H1 H2| | | |]; subst.
        change (c :: s1 ++ s2) with ((c :: s1) ++ s2). constructor; auto.
      * change (c :: s) with ([] ++ c :: s).
        constructor; auto using nullable_matches_nil.
    + inversion H as [| | |? ? s1 s2 H1 H2| | | |]; subst.
      change (c :: s1 ++ s2) with ((c :: s1) ++ s2). constructor; auto.
  - inversion H; subst; [apply MAltL | apply MAltR]; auto.
  - inversion H as [| | |? ? s1 s2 H1 H2| | | |]; subst.
    change (c :: s1 ++ s2) with ((c :: s1) ++ s2). constructor; auto.
Qed.

Lemma deriv_complete c r : forall s, matches r (c :: s) -> matches (deriv c r) s.
Proof.
  induction r as [| |d|items|r1 IH1 r2 IH2|r1 IH1 r2 IH2|r1 IH1];
    simpl; intros s H.
  - inversion H.
  - inversion H.
  - inversion H; subst. rewrite N.eqb_refl. constructor.
  - inversion H as [| |? ? E| | | | |]; subst. rewrite E. constructor.
  - apply matches_cat_cons in H as [(s1 & s2 & -> & H1 & H2)|[H1 H2]].
    + destruct (nullable r1); [apply MAltL|]; constructor; auto.
    + rewrite (matches_nil_nullable _ _ H1 eq_refl). apply MAltR; auto.
  - inversion H; subst; [apply MAltL | apply MAltR]; auto.
  - apply matches_star_cons in H as (s1 & s2 & -> & H1 & H2).
    constructor; auto.
Qed.

Lemma test_anchored_matches r s : test_anchored r s = true <-> matches r s.
Proof.
  revert r; induction s as [|c s IH]; intros r; simpl.
  - split; [apply nullable_matches_nil | intros H; now apply (matches_nil_nullable _ _ H)].
  - rewrite IH. split; [apply deriv_sound | apply deriv_complete].
Qed.

End RegExpFacts.

(** ** The e-mail pattern against the shape the specification words *)

Section EmailPattern.

Import RegExp.

Lemma matches_cat_inv r1 r2 s :
  matches (Cat r1 r2) s <->
  exists s1 s2, s = s1 ++ s2 /\ matches r1 s1 /\ matches r2 s2.
Proof.
  split.
  - intros H. remember (Cat r1 r2) as r eqn:Er.
    destruct H; try discriminate. injection Er as -> ->. eauto.
  - intros (s1 & s2 & -> & H1 & H2). now constructor.
Qed.

Lemma matches_char_inv c s : matches (Char c) s <-> s = [c].
Proof.
  split.
  - intros H. remember (Char c) as r eqn:Er.
    destruct H; try discriminate. now injection Er as ->.
  - intros ->. constructor.
Qed.

Lemma class_mem_plain c :
  class_mem [ClassSpace; ClassChar 64] c = negb (plain_char c).
Proof.
  unfold class_mem, plain_char. simpl.
  destruct (is_space c), (N.eqb c 64); reflexivity.
Qed.

Lemma matches_plain_inv s :
  matches not_space_or_at s <-> exists c, s = [c] /\ plain_char c = true.
Proof.
  unfold not_space_or_at. split.
  - intros H. remember (NegClass _) as r eqn:Er.
    destruct H as [| |items c E| | | | |]; try discriminate.
    injection Er as ->. rewrite class_mem_plain in E.
    exists c. split; [reflexivity|]. now destruct (plain_char c).
  - intros (c & -> & E). constructor. rewrite class_mem_plain, E. reflexivity.
Qed.

Lemma matches_star_plain s :
  matches (Star not_space_or_at) s <-> forallb plain_char s = true.
Proof.
  split.
  - intros H. remember (Star not_space_or_at) as r eqn:Er.
    induction H as [| | | | | | |r0 s1 s2 H1 _ H2 IH2]; try discriminate.
    + reflexivity.
    + injection Er as ->.
      apply matches_plain_inv in H1 as (c & -> & E).
      simpl. rewrite E. now apply IH2.
  - induction s as [|c s IH]; simpl; intros E.
    + constructor.
    + apply andb_prop in E as [Ec Es].
      change (c :: s) with ([c] ++ s). constructor; [|now apply IH].
      apply matches_plain_inv. eauto.
Qed.

Lemma matches_plus_plain s :
  matches (Plus not_space_or_at) s <-> plain_run s.
Proof.
  unfold Plus, plain_run. rewrite matches_cat_inv. split.
  - intros (s1 & s2 & -> & H1 & H2).
    apply matches_plain_inv in H1 as (c & -> & E).
    apply matches_star_plain in H2. simpl. rewrite E, H2.
    split; [discriminate | reflexivity].
  - intros [Hne E]. destruct s as [|c s]; [congruence|].
    simpl in E. apply andb_prop in E as [Ec Es].
    exists [c], s. repeat split.
    + apply matches_plain_inv. eauto.
    + now apply matches_star_plain.
Qed.

Lemma emailRegex_matches s : matches emailRegex s <-> email_shape s.
Proof.
  unfold emailRegex, email_shape. split.
  - intros H.
    apply matches_cat_inv in H as (l & s1 & -> & Hl & H).
    apply matches_cat_inv in H as (a & s2 & -> & Ha & H).
    apply matches_cat_inv in H as (d & s3 & -> & Hd & H).
    apply matches_cat_inv in H as (p & t & -> & Hp & Ht).
    apply matches_char_inv in Ha as ->. apply matches_char_inv in Hp as ->.
    exists l, d, t. rewrite <- !matches_plus_plain. auto.
  - intros (l & d & t & -> & Hl & Hd & Ht).
    rewrite <- matches_plus_plain in Hl, Hd, Ht.
    repeat (constructor; auto).
Qed.

Lemma emailRegex_test_shape s : emailRegex_test s = true <-> email_shape s.
Proof.
  unfold emailRegex_test. now rewrite test_anchored_matches, emailRegex_matches.
Qed.

Lemma emailRegex_test_nonempty s : emailRegex_test s = true -> s <> [].
Proof. intros H ->. discriminate H. Qed.

End EmailPattern.

(** ** The validation steps of the POST branch *)

Lemma json_null_dec (v : json) : {v = JNull} + {v <> JNull}.
Proof. destruct v; (now left) || (right; discriminate). Qed.

Lemma field_not_null data k v : field data k = Some v -> data <> JNull.
Proof. intros H ->. discriminate H. Qed.

Lemma prop_not_null data k tr :
  data <> JNull -> prop data k tr = (Normal (field data k), tr).
Proof. destruct data; intros H; try reflexivity. congruence. Qed.

Lemma prop_null k tr : prop JNull k tr = (Throw TypeError, tr).
Proof. reflexivity. Qed.

Lemma reads_field v k x : reads v k x -> v <> JNull /\ x = field v k.
Proof.
  unfold reads, run. intros H. destruct (json_null_dec v) as [->|Hn].
  - discriminate H.
  - rewrite (prop_not_null _ _ _ Hn) in H. now injection H as <-.
Qed.

(** Past the parse, the [try] block answers by the verdict of the
    validation or goes on to the verification call. *)
Lemma post_try_validate request env w data tr :
  request_json request = Normal data -> data <> JNull ->
  post_try request env w tr =
  match validate data with
  | Valid name email message token =>
      verify_and_send data name email message token env w tr
  | Rejected why => (Normal (rejection why), tr)
  end.
Proof.
  intros Hj Hn. unfold post_try, validate, bind, await. rewrite Hj.
  cbv beta iota. rewrite (prop_not_null _ _ _ Hn).
  destruct (truthy (field data "name")); [|reflexivity].
  change (negb true) with false; cbv beta iota. rewrite (prop_not_null _ _ _ Hn).
  destruct (truthy (field data "email")); [|reflexivity].
  change (negb true) with false; cbv beta iota. rewrite (prop_not_null _ _ _ Hn).
  destruct (truthy (field data "message")); [|reflexivity].
  change (negb true) with false; cbv beta iota. rewrite (prop_not_null _ _ _ Hn).
  simpl andb. cbv beta iota.
  destruct (as_string (field data "name")) as [name|]; [|reflexivity].
  destruct (as_string (field data "email")) as [email|]; [|reflexivity].
  destruct (as_string (field data "message")) as [message|]; [|reflexivity].
  destruct (as_string (field data "token")) as [token|]; [|reflexivity].
  destruct ((str_length name >? 100)%Z || (str_length message >? 1000)%Z);
    [reflexivity|].
  destruct (emailRegex_test email); reflexivity.
Qed.

Lemma post_try_null request env w tr :
  request_json request = Normal JNull ->
  post_try request env w tr = (Throw TypeError, tr).
Proof. intros Hj. unfold post_try, bind, await. now rewrite Hj. Qed.

Lemma post_try_parse_error request env w e tr :
  request_json request = Throw e ->
  post_try request env w tr = (Throw e, tr).
Proof. intros Hj. unfold post_try, bind, await. now rewrite Hj. Qed.

Lemma truthy_string s : s <> [] -> truthy (Some (JString s)) = true.
Proof. destruct s; [congruence | reflexivity]. Qed.

Lemma validate_passes data name email message token :
  passes_validation data name email message token ->
  validate data = Valid name email message token.
Proof.
  unfold passes_validation, string_field, validate.
  intros (Hn & Hn' & He & He' & Hm & Hm' & Ht & Ln & Lm & Hr).
  rewrite Hn, He, Hm, Ht, !truthy_string by assumption. simpl.
  replace (str_length name >? 100)%Z with false
    by (symmetry; rewrite Z.gtb_ltb; now apply Z.ltb_ge).
  replace (str_length message >? 1000)%Z with false
    by (symmetry; rewrite Z.gtb_ltb; now apply Z.ltb_ge).
  simpl. now rewrite Hr.
Qed.

(** ** The verification call and the dispatch *)

Section VerifyAndSend.

Variables (data : json) (name email message token : jsstring).
Variables (env : Env) (w : World).

Local Abbreviation made n := (firstn n (calls env name email message token)).

Ltac unfold_run :=
  unfold run, verify_and_send, bind, call, await, ret, throw; simpl app.

Lemma verify_fetch_throws e :
  global_fetch w siteverify (turnstile_init env token) = Throw e ->
  run (verify_and_send data name email message token env w)
  = (Throw e, made 1).
Proof. intros H. unfold_run. now rewrite H. Qed.

Lemma verify_json_throws res e :
  global_fetch w siteverify (turnstile_init env token) = Normal res ->
  res_json res = Throw e ->
  run (verify_and_send data name email message token env w)
  = (Throw e, made 1).
Proof. intros H1 H2. unfold_run. now rewrite H1, H2. Qed.

Lemma verify_json_null res :
  global_fetch w siteverify (turnstile_init env token) = Normal res ->
  res_json res = Normal JNull ->
  run (verify_and_send data name email message token env w)
  = (Throw TypeError, made 1).
Proof. intros H1 H2. unfold_run. now rewrite H1, H2. Qed.

Lemma verify_refused res outcome :
  global_fetch w siteverify (turnstile_init env token) = Normal res ->
  res_json res = Normal outcome ->
  outcome <> JNull ->
  truthy (field outcome "success") = false ->
  run (verify_and_send data name email message token env w)
  = (Normal (error_response 403 "Turnstile verification failed"), made 1).
Proof.
  intros H1 H2 Hn Hs. unfold_run. rewrite H1, H2.
  fold (prop outcome "success" (made 1)). rewrite (prop_not_null _ _ _ Hn).
  now rewrite Hs.
Qed.

Section Verified.

Variables (res : FetchResponse) (outcome : json).
Hypothesis Hfetch :
  global_fetch w siteverify (turnstile_init env token) = Normal res.
Hypothesis Hjson : res_json res = Normal outcome.
Hypothesis Hnot_null : outcome <> JNull.
Hypothesis Hsuccess : truthy (field outcome "success") = true.

Lemma verified_run :
  run (verify_and_send data name email message token env w)
  = match WorkerMailer_connect w (mailer_options env) with
    | Throw e => (Throw e, made 2)
    | Normal mailer =>
        match mailer_send mailer (feedback_mail name email message) with
        | Throw e => (Throw e, made 3)
        | Normal _ =>
            (Normal (success_response data), made 4)
        end
    end.
Proof.
  unfold_run. rewrite Hfetch, Hjson.
  fold (prop outcome "success" (made 1)).
  rewrite (prop_not_null _ _ _ Hnot_null), Hsuccess. simpl.
  destruct (WorkerMailer_connect w (mailer_options env)) as [mailer|e];
    [|reflexivity].
  destruct (mailer_send mailer (feedback_mail name email message));
    reflexivity.
Qed.

End Verified.

End VerifyAndSend.

(** ** The handler, branch by branch *)

Lemma fetch_options request env w :
  method request = "OPTIONS"%string ->
  run (fetch request env w) = (Normal preflight_response, []).
Proof. intros H. unfold run, fetch. now rewrite H. Qed.

Lemma fetch_post request env w :
  method request = "POST"%string ->
  run (fetch request env w)
  = match run (post_try request env w) with
    | (Normal r, tr) => (Normal r, tr)
    | (Throw _, tr) => (Normal (error_response 400 "Bad Request"), tr)
    end.
Proof.
  intros H. unfold run, fetch, try_catch. rewrite H.
  change (String.eqb "POST" "OPTIONS") with false.
  change (String.eqb "POST" "POST") with true. cbv beta iota.
  destruct (post_try request env w []) as [[r|e] tr]; reflexivity.
Qed.

Lemma fetch_other request env w :
  method request <> "OPTIONS"%string -> method request <> "POST"%string ->
  run (fetch request env w) = (Normal method_not_allowed, []).
Proof.
  intros H1 H2. unfold run, fetch.
  apply String.eqb_neq in H1, H2. now rewrite H1, H2.
Qed.

(** A POST whose body parsed to a value other than [null]. *)
Lemma fetch_post_validate request env w data :
  method request = "POST"%string ->
  request_json request = Normal data -> data <> JNull ->
  run (fetch request env w)
  = match validate data with
    | Valid name email message token =>
        match run (verify_and_send data name email message token env w) with
        | (Normal r, tr) => (Normal r, tr)
        | (Throw _, tr) => (Normal (error_response 400 "Bad Request"), tr)
        end
    | Rejected why => (Normal (rejection why), [])
    end.
Proof.
  intros Hm Hj Hn. rewrite (fetch_post _ env w Hm). unfold run at 1.
  rewrite (post_try_validate _ env w _ _ Hj Hn).
  destruct (validate data) as [why|name email message token]; reflexivity.
Qed.

Lemma passes_not_null data name email message token :
  passes_validation data name email message token -> data <> JNull.
Proof. intros (H & _). exact (field_not_null _ _ _ H). Qed.

(** C1: a POST whose body has non-empty string name, email and message
    within the length bounds, an e-mail the pattern accepts and a string
    token, whose verification call answers [{success: true}] and whose
    relay connect and send succeed, is answered with HTTP 200 and the
    body [{success: true, received: data}], [data] being the parsed
    body as it is. *)
Theorem valid_submission_accepted
    request env w data name email message token res outcome mailer :
  method request = "POST"%string ->
  request_json request = Normal data ->
  passes_validation data name email message token ->
  global_fetch w siteverify (turnstile_init env token) = Normal res ->
  res_json res = Normal outcome ->
  field outcome "success" = Some (JBool true) ->
  WorkerMailer_connect w (mailer_options env) = Normal mailer ->
  mailer_send mailer (feedback_mail name email message) = Normal tt ->
  run (fetch request env w)
  = (Normal (success_response data), calls env name email message token).
Proof.
  intros Hm Hj Hv Hf Hr Hs Hc Hsend.
  rewrite (fetch_post_validate _ env w _ Hm Hj (passes_not_null _ _ _ _ _ Hv)).
  rewrite (validate_passes _ _ _ _ _ Hv).
  rewrite (verified_run data name email message token env w res outcome
             Hf Hr (field_not_null _ _ _ Hs)) by now rewrite Hs.
  now rewrite Hc, Hsend.
Qed.

Lemma ana_passes_validation :
  passes_validation ana (lit "Ana") (lit "ana@example.com") (lit "Hello")
    (lit "tok123").
Proof.
  unfold passes_validation, string_field.
  repeat split; try reflexivity; try discriminate.
Qed.

Lemma valid_submission_accepted_witness :
  run (fetch (post (Normal ana)) sample_env happy_world)
  = (Normal (success_response ana),
     calls sample_env (lit "Ana") (lit "ana@example.com") (lit "Hello")
       (lit "tok123")).
Proof.
  apply (valid_submission_accepted (post (Normal ana)) sample_env happy_world
           ana (lit "Ana") (lit "ana@example.com") (lit "Hello") (lit "tok123")
           {| res_json := verified |}
           (JObject [(lit "success", JBool true)])
           {| mailer_send := fun _ => Normal tt |});
    try reflexivity.
  exact ana_passes_validation.
Defined.

(** ** The verdicts of the validation, read backwards *)

Lemma as_string_some v s : as_string v = Some s -> v = Some (JString s).
Proof.
  destruct v as [[| | |s'| |]|]; simpl; intros H; try discriminate.
  now injection H as ->.
Qed.

Lemma truthy_string_nonempty s : truthy (Some (JString s)) = true -> s <> [].
Proof. destruct s; [discriminate | discriminate]. Qed.

Lemma validate_valid data name email message token :
  validate data = Valid name email message token ->
  passes_validation data name email message token.
Proof.
  unfold validate, passes_validation, string_field.
  destruct (truthy (field data "name")) eqn:Tn; [|discriminate].
  destruct (truthy (field data "email")) eqn:Te; [|discriminate].
  destruct (truthy (field data "message")) eqn:Tm; [|discriminate].
  simpl andb. cbv iota.
  destruct (as_string (field data "name")) as [n|] eqn:An; [|discriminate].
  destruct (as_string (field data "email")) as [e|] eqn:Ae; [|discriminate].
  destruct (as_string (field data "message")) as [m|] eqn:Am; [|discriminate].
  destruct (as_string (field data "token")) as [t|] eqn:At; [|discriminate].
  apply as_string_some in An, Ae, Am, At.
  rewrite An in Tn. rewrite Ae in Te. rewrite Am in Tm.
  apply truthy_string_nonempty in Tn, Te, Tm.
  destruct (str_length n >? 100)%Z eqn:Ln; [discriminate|].
  destruct (str_length m >? 1000)%Z eqn:Lm; [discriminate|].
  simpl orb. cbv iota.
  destruct (emailRegex_test e) eqn:Hr; [|discriminate].
  intros H. injection H as <- <- <- <-.
  rewrite Z.gtb_ltb in Ln, Lm. apply Z.ltb_ge in Ln, Lm.
  repeat split; assumption.
Qed.

Lemma validate_iff data name email message token :
  validate data = Valid name email message token <->
  passes_validation data name email message token.
Proof. split; [apply validate_valid | apply validate_passes]. Qed.

(** From the verification call on, the block ends by a throw after one
    to three calls, by the refusal after the first, or by the success
    after all four. *)
Lemma verify_and_send_cases data name email message token env w :
  let made n := firstn n (calls env name email message token) in
  (exists e n, (1 <= n <= 3)%nat
     /\ run (verify_and_send data name email message token env w)
        = (Throw e, made n))
  \/ run (verify_and_send data name email message token env w)
     = (Normal (error_response 403 "Turnstile verification failed"), made 1)
  \/ run (verify_and_send data name email message token env w)
     = (Normal (success_response data), made 4).
Proof.
  intros made.
  destruct (global_fetch w siteverify (turnstile_init env token))
    as [res|e] eqn:Hf.
  2:{ left. exists e, 1. split; [lia|]. now apply verify_fetch_throws. }
  destruct (res_json res) as [outcome|e] eqn:Hj.
  2:{ left. exists e, 1. split; [lia|]. now apply verify_json_throws with res. }
  destruct (json_null_dec outcome) as [->|Hn].
  { left. exists TypeError, 1. split; [lia|].
    now apply verify_json_null with res. }
  destruct (truthy (field outcome "success")) eqn:Hs.
  2:{ right; left. now apply verify_refused with res outcome. }
  rewrite (verified_run data name email message token env w res outcome
             Hf Hj Hn Hs).
  destruct (WorkerMailer_connect w (mailer_options env)) as [mailer|e].
  2:{ left. exists e, 2. split; [lia|reflexivity]. }
  destruct (mailer_send mailer (feedback_mail name email message)) as [[]|e].
  - right; right. reflexivity.
  - left. exists e, 3. split; [lia|reflexivity].
Qed.

(** Every request is answered, by one of the answers of [answer]. *)
Lemma fetch_answer request env w :
  exists r tr,
    run (fetch request env w) = (Normal r, tr) /\ answer request env r tr.
Proof.
  destruct (String.eqb_spec (method request) "OPTIONS") as [Ho|Ho].
  { exists preflight_response, []. split;
      [now apply fetch_options | now constructor]. }
  destruct (String.eqb_spec (method request) "POST") as [Hp|Hp].
  2:{ exists method_not_allowed, []. split;
        [now apply fetch_other | now constructor]. }
  destruct (request_json request) as [data|e] eqn:Hj.
  2:{ exists (error_response 400 "Bad Request"), [].
      rewrite (fetch_post _ env w Hp). unfold run.
      rewrite (post_try_parse_error _ env w e [] Hj).
      split; [reflexivity | now constructor]. }
  destruct (json_null_dec data) as [->|Hn].
  { exists (error_response 400 "Bad Request"), [].
    rewrite (fetch_post _ env w Hp). unfold run.
    rewrite (post_try_null _ env w [] Hj).
    split; [reflexivity | now constructor]. }
  rewrite (fetch_post_validate _ env w data Hp Hj Hn).
  destruct (validate data) as [why|name email message token].
  { exists (rejection why), [].
    split; [reflexivity | destruct why; now constructor]. }
  destruct (verify_and_send_cases data name email message token env w)
    as [(e & n & Hn' & ->)|[-> | ->]];
    eexists; eexists; (split; [reflexivity|]).
  - now apply AnswerFailed.
  - now apply AnswerRefused.
  - now apply AnswerSent.
Qed.

(** ** Status codes *)

(** C2: whatever the request, and whether the verification call and the
    relay's connect and send return or throw, the handler answers, and
    the status of its answer is 200, 400, 403 or 405: never a 5xx. *)
Theorem status_never_5xx request env w :
  exists r tr,
    run (fetch request env w) = (Normal r, tr)
    /\ In (status r) [200; 400; 403; 405]%Z.
Proof.
  destruct (fetch_answer request env w) as (r & tr & Hrun & Ha).
  exists r, tr. split; [exact Hrun|].
  destruct Ha; simpl; tauto.
Qed.

(** ** The catch-all *)

Lemma raised_post_try request env w e tr :
  raised request env w e tr -> run (post_try request env w) = (Throw e, tr).
Proof.
  intros H.
  destruct H as
    [e Hj | Hj
    | data n em m t e Hj Hv Hf
    | data n em m t res e Hj Hv Hf Hr
    | data n em m t res Hj Hv Hf Hr
    | data n em m t res outcome e Hj Hv Hf Hr Hn Hs Hc
    | data n em m t res outcome mailer e Hj Hv Hf Hr Hn Hs Hc Hsend];
    unfold run;
    try (rewrite (post_try_validate _ env w data [] Hj
                    (passes_not_null _ _ _ _ _ Hv)),
           (validate_passes _ _ _ _ _ Hv)).
  - now apply post_try_parse_error.
  - now apply post_try_null.
  - now apply verify_fetch_throws.
  - now apply verify_json_throws with res.
  - now apply verify_json_null with res.
  - fold (run (verify_and_send data n em m t env w)).
    rewrite (verified_run data n em m t env w res outcome Hf Hr Hn Hs).
    now rewrite Hc.
  - fold (run (verify_and_send data n em m t env w)).
    rewrite (verified_run data n em m t env w res outcome Hf Hr Hn Hs).
    now rewrite Hc, Hsend.
Qed.

(** The causes listed by [raised] are all there are. *)
Lemma post_try_raised request env w e tr :
  run (post_try request env w) = (Throw e, tr) -> raised request env w e tr.
Proof.
  unfold run.
  destruct (request_json request) as [data|e0] eqn:Hj.
  2:{ rewrite (post_try_parse_error _ env w e0 [] Hj).
      intros H; injection H as <- <-. now constructor. }
  destruct (json_null_dec data) as [->|Hn].
  { rewrite (post_try_null _ env w [] Hj).
    intros H; injection H as <- <-. now apply RaisedNullBody. }
  rewrite (post_try_validate _ env w data [] Hj Hn).
  destruct (validate data) as [why|n em m t] eqn:Hv; [discriminate|].
  apply validate_valid in Hv.
  fold (run (verify_and_send data n em m t env w)).
  destruct (global_fetch w siteverify (turnstile_init env t))
    as [res|e1] eqn:Hf.
  2:{ rewrite (verify_fetch_throws data n em m t env w e1 Hf).
      intros H; injection H as <- <-.
      exact (RaisedFetch request env w data n em m t e1 Hj Hv Hf). }
  destruct (res_json res) as [outcome|e1] eqn:Hr.
  2:{ rewrite (verify_json_throws data n em m t env w res e1 Hf Hr).
      intros H; injection H as <- <-.
      exact (RaisedReply request env w data n em m t res e1 Hj Hv Hf Hr). }
  destruct (json_null_dec outcome) as [->|Hn'].
  { rewrite (verify_json_null data n em m t env w res Hf Hr).
    intros H; injection H as <- <-.
    exact (RaisedNullReply request env w data n em m t res Hj Hv Hf Hr). }
  destruct (truthy (field outcome "success")) eqn:Hs.
  2:{ rewrite (verify_refused data n em m t env w res outcome Hf Hr Hn' Hs).
      discriminate. }
  rewrite (verified_run data n em m t env w res outcome Hf Hr Hn' Hs).
  destruct (WorkerMailer_connect w (mailer_options env)) as [mailer|e1] eqn:Hc.
  2:{ intros H; injection H as <- <-.
      exact (RaisedConnect request env w data n em m t res outcome e1
               Hj Hv Hf Hr Hn' Hs Hc). }
  destruct (mailer_send mailer (feedback_mail n em m)) as [[]|e1] eqn:Hsend;
    [discriminate|].
  intros H; injection H as <- <-.
  exact (RaisedSend request env w data n em m t res outcome mailer e1
           Hj Hv Hf Hr Hn' Hs Hc Hsend).
Qed.

(** C3: on a POST, an exception raised anywhere in the pipeline (parsing
    the body, reading a field during validation, the verification call
    or its reply, the relay's connect or send) ends the [try] block, and
    the one outer handler answers HTTP 400 [{error: "Bad Request"}]
    whatever the exception was. *)
Theorem exception_is_bad_request request env w e tr :
  method request = "POST"%string ->
  raised request env w e tr ->
  run (post_try request env w) = (Throw e, tr)
  /\ run (fetch request env w)
     = (Normal (error_response 400 "Bad Request"), tr).
Proof.
  intros Hm Hr. apply raised_post_try in Hr.
  split; [exact Hr|]. rewrite (fetch_post _ env w Hm). now rewrite Hr.
Qed.

Lemma exception_is_bad_request_witness :
  run (fetch (post (Normal ana)) sample_env
         (world verified (relay (Throw (Failure "421 try again later")))))
  = (Normal (error_response 400 "Bad Request"),
     firstn 3 (calls sample_env (lit "Ana") (lit "ana@example.com")
                 (lit "Hello") (lit "tok123"))).
Proof.
  apply (exception_is_bad_request (post (Normal ana)) sample_env
           (world verified (relay (Throw (Failure "421 try again later"))))
           (Failure "421 try again later")).
  - reflexivity.
  - apply (RaisedSend (post (Normal ana)) sample_env _ ana
             (lit "Ana") (lit "ana@example.com") (lit "Hello") (lit "tok123")
             {| res_json := verified |}
             (JObject [(lit "success", JBool true)])
             {| mailer_send := fun _ => Throw (Failure "421 try again later") |}
             (Failure "421 try again later"));
      try reflexivity; try discriminate.
    exact ana_passes_validation.
Defined.

(** ** A refused verification *)

(** C4: on a POST that passes all validation steps, when the reply of
    the verification service has a falsy [success] flag the handler
    answers HTTP 403 [{error: "Turnstile verification failed"}], and the
    verification call is the only call made: the relay is not
    contacted. *)
Theorem refused_verification_is_403
    request env w data name email message token res outcome success :
  method request = "POST"%string ->
  request_json request = Normal data ->
  passes_validation data name email message token ->
  global_fetch w siteverify (turnstile_init env token) = Normal res ->
  res_json res = Normal outcome ->
  reads outcome "success" success ->
  truthy success = false ->
  run (fetch request env w)
  = (Normal (error_response 403 "Turnstile verification failed"),
     [EvFetch siteverify (turnstile_init env token)]).
Proof.
  intros Hm Hj Hv Hf Hr Hread Hs.
  apply reads_field in Hread as [Hn ->].
  rewrite (fetch_post_validate _ env w _ Hm Hj (passes_not_null _ _ _ _ _ Hv)).
  rewrite (validate_passes _ _ _ _ _ Hv).
  now rewrite (verify_refused data name email message token env w res outcome
                 Hf Hr Hn Hs).
Qed.

Lemma refused_verification_is_403_witness :
  run (fetch (post (Normal ana)) sample_env
         (world unverified (relay (Normal tt))))
  = (Normal (error_response 403 "Turnstile verification failed"),
     [EvFetch siteverify (turnstile_init sample_env (lit "tok123"))]).
Proof.
  apply (refused_verification_is_403 (post (Normal ana)) sample_env
           (world unverified (relay (Normal tt))) ana
           (lit "Ana") (lit "ana@example.com") (lit "Hello") (lit "tok123")
           {| res_json := unverified |}
           (JObject [(lit "success", JBool false);
                     (lit "error-codes",
                      JArray [JString (lit "invalid-input-response")])])
           (Some (JBool false)));
    try reflexivity.
  exact ana_passes_validation.
Defined.

(** ** Missing fields *)

Lemma validate_missing data :
  missing_field data -> validate data = Rejected MissingFields.
Proof.
  unfold missing_field, validate. intros [H|[H|H]]; rewrite H.
  - reflexivity.
  - now rewrite andb_false_r.
  - now rewrite andb_false_r.
Qed.

(** C5, as stated, fails on the body [null]: it has none of the three
    fields, yet reading [data.name] throws and the answer is the
    catch-all's [Bad Request], not [Missing required fields]. *)
Lemma null_body_is_bad_request :
  missing_field JNull
  /\ run (fetch (post (Normal JNull)) sample_env happy_world)
     = (Normal (error_response 400 "Bad Request"), [])
  /\ error_response 400 "Bad Request"
     <> error_response 400 "Missing required fields".
Proof.
  split; [left; reflexivity|]. split; [reflexivity|]. discriminate.
Qed.

(** C5, amended: on a POST whose parsed body is not [null] and lacks
    (or has a falsy value for) one of [name], [email], [message], the
    handler answers HTTP 400 [{error: "Missing required fields"}] and
    makes no call: neither the verification service nor the relay is
    contacted. *)
Theorem missing_fields_rejected request env w data :
  method request = "POST"%string ->
  request_json request = Normal data ->
  data <> JNull ->
  missing_field data ->
  run (fetch request env w)
  = (Normal (error_response 400 "Missing required fields"), []).
Proof.
  intros Hm Hj Hn Hmiss.
  rewrite (fetch_post_validate _ env w data Hm Hj Hn).
  now rewrite (validate_missing _ Hmiss).
Qed.

Lemma missing_fields_rejected_witness :
  run (fetch (post (Normal no_message)) sample_env happy_world)
  = (Normal (error_response 400 "Missing required fields"), []).
Proof.
  apply (missing_fields_rejected (post (Normal no_message)) sample_env
           happy_world no_message).
  - reflexivity.
  - reflexivity.
  - discriminate.
  - right; right. reflexivity.
Defined.

(** ** Length bounds *)

(** C6: on a POST whose four fields are strings, [name], [email] and
    [message] non-empty, with a name longer than 100 characters or a
    message longer than 1000, the handler answers HTTP 400
    [{error: "Input too long"}] and makes no call. *)
Theorem long_input_rejected request env w data name email message token :
  method request = "POST"%string ->
  request_json request = Normal data ->
  string_field data "name" name -> name <> [] ->
  string_field data "email" email -> email <> [] ->
  string_field data "message" message -> message <> [] ->
  string_field data "token" token ->
  (str_length name > 100 \/ str_length message > 1000)%Z ->
  run (fetch request env w)
  = (Normal (error_response 400 "Input too long"), []).
Proof.
  unfold string_field. intros Hm Hj Hn Hn' He He' Hg Hg' Ht Hlong.
  rewrite (fetch_post_validate _ env w data Hm Hj (field_not_null _ _ _ Hn)).
  unfold validate. rewrite Hn, He, Hg, Ht, !truthy_string by assumption.
  simpl.
  replace ((str_length name >? 100)%Z || (str_length message >? 1000)%Z)
    with true; [reflexivity|].
  symmetry. apply orb_true_iff. rewrite !Z.gtb_ltb, !Z.ltb_lt. lia.
Qed.

Lemma long_input_rejected_witness :
  run (fetch (post (Normal (submission long_name (lit "ana@example.com")
                              (lit "Hello") (lit "tok123"))))
         sample_env happy_world)
  = (Normal (error_response 400 "Input too long"), []).
Proof.
  apply (long_input_rejected _ sample_env happy_world
           (submission long_name (lit "ana@example.com") (lit "Hello")
              (lit "tok123"))
           long_name (lit "ana@example.com") (lit "Hello") (lit "tok123"));
    try reflexivity; try discriminate.
  left. reflexivity.
Defined.

(** ** The e-mail check *)

Lemma validate_bad_email data name email message token :
  string_field data "name" name -> name <> [] ->
  string_field data "email" email -> email <> [] ->
  string_field data "message" message -> message <> [] ->
  string_field data "token" token ->
  (str_length name <= 100)%Z -> (str_length message <= 1000)%Z ->
  emailRegex_test email = false ->
  validate data = Rejected BadEmail.
Proof.
  unfold string_field, validate. intros Hn Hn' He He' Hg Hg' Ht Ln Lg Hr.
  rewrite Hn, He, Hg, Ht, !truthy_string by assumption. simpl.
  replace (str_length name >? 100)%Z with false
    by (symmetry; rewrite Z.gtb_ltb; now apply Z.ltb_ge).
  replace (str_length message >? 1000)%Z with false
    by (symmetry; rewrite Z.gtb_ltb; now apply Z.ltb_ge).
  simpl. now rewrite Hr.
Qed.

Lemma no_at_sign_shapeless : ~ email_shape (lit "no-at-sign").
Proof.
  intros H. apply emailRegex_test_shape in H. discriminate H.
Qed.

(** C7, as stated, fails on the empty string: it does not match the
    pattern, yet a POST whose e-mail is the empty string (every other
    field being valid) is answered [Missing required fields], not
    [Invalid email format].  Nor is a string that fails the pattern
    answered so when an earlier step rejects the submission: with a
    name of 101 characters, ["no-at-sign"] is answered
    [Input too long]. *)
Lemma empty_email_is_missing_field :
  emailRegex_test [] = false
  /\ run (fetch (post (Normal (submission (lit "Ana") [] (lit "Hello")
                                 (lit "tok123"))))
            sample_env happy_world)
     = (Normal (error_response 400 "Missing required fields"), [])
  /\ error_response 400 "Missing required fields"
     <> error_response 400 "Invalid email format"
  /\ emailRegex_test (lit "no-at-sign") = false
  /\ run (fetch (post (Normal (submission long_name (lit "no-at-sign")
                                 (lit "Hello") (lit "tok123"))))
            sample_env happy_world)
     = (Normal (error_response 400 "Input too long"), [])
  /\ error_response 400 "Input too long"
     <> error_response 400 "Invalid email format".
Proof.
  split; [reflexivity|]. split; [reflexivity|]. split; [discriminate|].
  split; [reflexivity|]. split; [reflexivity|]. discriminate.
Qed.

(** C7, amended: the e-mail check accepts a string exactly when it has
    the shape run, ['@'], run, ['.'], run, a run being one or more
    characters that are neither whitespace nor ['@']; it rejects
    ["no-at-sign"], ["a@b"] and ["@b.com"]; and on a POST whose name and
    message are non-empty strings within the length bounds and whose
    token is a string, a non-empty e-mail string that fails the check is
    answered HTTP 400 [{error: "Invalid email format"}], with no call
    made. *)
Theorem email_check :
  (forall s, emailRegex_test s = true <-> email_shape s)
  /\ emailRegex_test (lit "no-at-sign") = false
  /\ emailRegex_test (lit "a@b") = false
  /\ emailRegex_test (lit "@b.com") = false
  /\ (forall request env w data name email message token,
        method request = "POST"%string ->
        request_json request = Normal data ->
        string_field data "name" name -> name <> [] ->
        string_field data "email" email -> email <> [] ->
        string_field data "message" message -> message <> [] ->
        string_field data "token" token ->
        (str_length name <= 100)%Z -> (str_length message <= 1000)%Z ->
        ~ email_shape email ->
        run (fetch request env w)
        = (Normal (error_response 400 "Invalid email format"), [])).
Proof.
  split; [exact emailRegex_test_shape|].
  do 3 (split; [reflexivity|]).
  intros request env w data name email message token
    Hm Hj Hn Hn' He He' Hg Hg' Ht Ln Lg Hshape.
  rewrite (fetch_post_validate _ env w data Hm Hj
             (field_not_null _ _ _ Hn)).
  rewrite (validate_bad_email data name email message token); auto.
  destruct (emailRegex_test email) eqn:Hr; [|reflexivity].
  now apply emailRegex_test_shape in Hr.
Qed.


Lemma email_check_witness :
  run (fetch (post (Normal (submission (lit "Ana") (lit "no-at-sign")
                              (lit "Hello") (lit "tok123"))))
         sample_env happy_world)
  = (Normal (error_response 400 "Invalid email format"), []).
Proof.
  apply (proj2 (proj2 (proj2 (proj2 email_check)))
           (post (Normal (submission (lit "Ana") (lit "no-at-sign")
                            (lit "Hello") (lit "tok123"))))
           sample_env happy_world
           (submission (lit "Ana") (lit "no-at-sign") (lit "Hello")
              (lit "tok123"))
           (lit "Ana") (lit "no-at-sign") (lit "Hello") (lit "tok123"));
    try reflexivity; try discriminate.
  exact no_at_sign_shapeless.
Defined.

(** ** Where the configuration comes from *)

Lemma Forall_prefix {A} (P : A -> Prop) (l : list A) :
  Forall P l -> forall n, Forall P (firstn n l).
Proof.
  induction 1 as [|x l Hx _ IH]; intros [|n]; simpl; constructor; auto.
Qed.

Lemma configured_calls env name email message token n :
  Forall (configured env) (firstn n (calls env name email message token)).
Proof.
  apply Forall_prefix. unfold calls. repeat constructor.
Qed.

(** C8, as stated, fails: the [Access-Control-Allow-Origin] of the
    preflight answer and the account name of the relay do not vary with
    the environment; two different environments give the same preflight
    answer and the same account name. *)
Lemma origin_and_username_are_literals :
  sample_env <> other_env
  /\ run (fetch options_request sample_env happy_world)
     = (Normal preflight_response, [])
  /\ run (fetch options_request other_env happy_world)
     = (Normal preflight_response, [])
  /\ credentials_username (mailer_options sample_env)
     = credentials_username (mailer_options other_env)
  /\ ~ env_sourced (fun env => run (fetch options_request env happy_world))
  /\ ~ env_sourced (fun env => credentials_username (mailer_options env)).
Proof.
  split; [discriminate|]. do 3 (split; [reflexivity|]).
  split; intros (env1 & env2 & H); apply H; reflexivity.
Qed.

(** C8, amended: of the configuration the handler consumes, the relay
    password and the verification secret are read from the environment
    at request time (every relay connection carries [env.pass], every
    verification call [env.TURNSTILE_SECRET], and both vary with the
    environment); the [Access-Control-Allow-Origin] of the preflight
    answer is the literal [https://beroea.tech] and the account name of
    the relay the literal [feedback@beroea.tech], whatever the
    environment. *)
Theorem configuration_sources :
  (forall request env w,
     exists r tr,
       run (fetch request env w) = (Normal r, tr)
       /\ (method request = "OPTIONS"%string ->
           get_header "Access-Control-Allow-Origin" (headers r)
           = Some "https://beroea.tech"%string)
       /\ Forall (configured env) tr)
  /\ env_sourced (fun env => credentials_password (mailer_options env))
  /\ (forall token,
        env_sourced
          (fun env => form_get "secret" (init_body (turnstile_init env token)))).
Proof.
  split; [|split].
  - intros request env w.
    destruct (fetch_answer request env w) as (r & tr & Hrun & Ha).
    exists r, tr. split; [exact Hrun|].
    destruct Ha as [Ho|Ho Hp|msg Hp|n em m t k Hp Hk|n em m t Hp|d n em m t Hp];
      (split; [intros Hopt; try reflexivity; try congruence|]);
      try (constructor; fail); try apply configured_calls.
    apply (configured_calls env n em m t 4).
  - exists sample_env, other_env. discriminate.
  - intros token. exists sample_env, other_env. discriminate.
Qed.

Lemma configuration_sources_witness :
  (exists r tr,
     run (fetch options_request other_env happy_world) = (Normal r, tr)
     /\ (method options_request = "OPTIONS"%string ->
         get_header "Access-Control-Allow-Origin" (headers r)
         = Some "https://beroea.tech"%string)
     /\ Forall (configured other_env) tr)
  /\ (exists r tr,
        run (fetch (post (Normal ana)) sample_env happy_world) = (Normal r, tr)
        /\ (method (post (Normal ana)) = "OPTIONS"%string ->
            get_header "Access-Control-Allow-Origin" (headers r)
            = Some "https://beroea.tech"%string)
        /\ Forall (configured sample_env) tr).
Proof.
  split.
  - exact (proj1 configuration_sources options_request other_env happy_world).
  - exact (proj1 configuration_sources (post (Normal ana)) sample_env
             happy_world).
Defined.

(** ** The token *)

Lemma validate_invalid_token data name email message :
  string_field data "name" name -> name <> [] ->
  string_field data "email" email -> email <> [] ->
  string_field data "message" message -> message <> [] ->
  as_string (field data "token") = None ->
  validate data = Rejected InvalidTypes.
Proof.
  unfold string_field, validate. intros Hn Hn' He He' Hg Hg' Ht.
  now rewrite Hn, He, Hg, Ht, !truthy_string by assumption.
Qed.

(** From the verification call on, the first call logged is that call. *)
Lemma verify_and_send_first_call data name email message token env w :
  exists c rest,
    run (verify_and_send data name email message token env w)
    = (c, EvFetch siteverify (turnstile_init env token) :: rest).
Proof.
  destruct (verify_and_send_cases data name email message token env w)
    as [(e & n & Hn & ->)|[-> | ->]].
  - destruct n as [|n]; [lia|]. simpl. eauto.
  - simpl. eauto.
  - simpl. eauto.
Qed.

(** C9, as stated, fails in its second half: with non-empty string
    name, e-mail and message and the empty string as token, a name of
    101 characters is answered [Input too long], and an e-mail that
    fails the check [Invalid email format]; in both cases the
    verification service is not called. *)
Lemma empty_token_long_name_not_verified :
  string_field (submission long_name (lit "ana@example.com") (lit "Hello") [])
    "name" long_name
  /\ long_name <> []
  /\ string_field (submission long_name (lit "ana@example.com") (lit "Hello") [])
       "token" []
  /\ run (fetch (post (Normal (submission long_name (lit "ana@example.com")
                                 (lit "Hello") [])))
            sample_env happy_world)
     = (Normal (error_response 400 "Input too long"), [])
  /\ run (fetch (post (Normal (submission (lit "Ana") (lit "a@b")
                                 (lit "Hello") [])))
            sample_env happy_world)
     = (Normal (error_response 400 "Invalid email format"), []).
Proof.
  split; [reflexivity|]. split; [discriminate|].
  split; [reflexivity|]. split; reflexivity.
Qed.

(** C9, amended: on a POST whose body has non-empty string name, e-mail
    and message, a token that is absent or not a string is answered
    HTTP 400 [{error: "Invalid field types"}] (not
    [Missing required fields]) with no call made; and when the token is
    the empty string, the name and the message are within the length
    bounds and the e-mail passes the check, the submission passes all
    validation and the verification service is called with [response]
    equal to the empty string. *)
Theorem token_validation :
  (forall request env w data name email message,
     method request = "POST"%string ->
     request_json request = Normal data ->
     string_field data "name" name -> name <> [] ->
     string_field data "email" email -> email <> [] ->
     string_field data "message" message -> message <> [] ->
     as_string (field data "token") = None ->
     run (fetch request env w)
     = (Normal (error_response 400 "Invalid field types"), []))
  /\ (forall request env w data name email message,
        method request = "POST"%string ->
        request_json request = Normal data ->
        passes_validation data name email message [] ->
        validate data = Valid name email message []
        /\ exists r rest init,
             run (fetch request env w)
             = (Normal r, EvFetch siteverify init :: rest)
             /\ form_get "response" (init_body init) = Some []).
Proof.
  split.
  - intros request env w data name email message Hm Hj Hn Hn' He He' Hg Hg' Ht.
    rewrite (fetch_post_validate _ env w data Hm Hj
               (field_not_null _ _ _ Hn)).
    now rewrite (validate_invalid_token data name email message).
  - intros request env w data name email message Hm Hj Hv.
    split; [now apply validate_passes|].
    rewrite (fetch_post_validate _ env w data Hm Hj
               (passes_not_null _ _ _ _ _ Hv)).
    rewrite (validate_passes _ _ _ _ _ Hv).
    destruct (verify_and_send_first_call data name email message [] env w)
      as ([r|e] & rest & ->).
    + exists r, rest, (turnstile_init env []). split; reflexivity.
    + exists (error_response 400 "Bad Request"), rest, (turnstile_init env []).
      split; reflexivity.
Qed.

Lemma token_validation_witness :
  run (fetch (post (Normal tokenless)) sample_env happy_world)
  = (Normal (error_response 400 "Invalid field types"), [])
  /\ (validate (submission (lit "Ana") (lit "ana@example.com") (lit "Hello") [])
      = Valid (lit "Ana") (lit "ana@example.com") (lit "Hello") []
      /\ exists r rest init,
           run (fetch (post (Normal (submission (lit "Ana")
                                       (lit "ana@example.com") (lit "Hello") [])))
                  sample_env happy_world)
           = (Normal r, EvFetch siteverify init :: rest)
           /\ form_get "response" (init_body init) = Some []).
Proof.
  split.
  - apply (proj1 token_validation (post (Normal tokenless)) sample_env
             happy_world tokenless (lit "Ana") (lit "ana@example.com")
             (lit "Hello"));
      try reflexivity; discriminate.
  - apply (proj2 token_validation
             (post (Normal (submission (lit "Ana") (lit "ana@example.com")
                              (lit "Hello") [])))
             sample_env happy_world
             (submission (lit "Ana") (lit "ana@example.com") (lit "Hello") [])
             (lit "Ana") (lit "ana@example.com") (lit "Hello"));
      try reflexivity.
    unfold passes_validation, string_field.
    repeat split; try reflexivity; discriminate.
Defined.

(** ** Response headers *)

(** C10: every answer of status 400 or 403 (missing fields, invalid
    types, length, e-mail format, refused verification, the catch-all)
    carries the one header [Content-Type: application/json] and no
    [Access-Control-Allow-Origin]; an answer that carries a CORS header
    is the preflight answer to OPTIONS or the 200 success answer to a
    POST, and these two do carry one. *)
Theorem cors_headers_only_on_preflight_and_success request env w :
  exists r tr,
    run (fetch request env w) = (Normal r, tr)
    /\ (status r = 400%Z \/ status r = 403%Z ->
        headers r = [("Content-Type", "application/json")%string]
        /\ get_header "Access-Control-Allow-Origin" (headers r) = None)
    /\ (has_cors_headers r = true ->
        (method request = "OPTIONS"%string /\ r = preflight_response)
        \/ (method request = "POST"%string /\ status r = 200%Z
            /\ exists data, r = success_response data))
    /\ has_cors_headers preflight_response = true
    /\ (forall data, has_cors_headers (success_response data) = true).
Proof.
  destruct (fetch_answer request env w) as (r & tr & Hrun & Ha).
  exists r, tr. split; [exact Hrun|].
  split; [|split; [|split; [reflexivity | intros data; reflexivity]]].
  - destruct Ha as [Ho|Ho Hp|msg Hp|n em m t k Hp Hk|n em m t Hp|d n em m t Hp];
      simpl; intros [H|H]; try discriminate H; split; reflexivity.
  - destruct Ha as [Ho|Ho Hp|msg Hp|n em m t k Hp Hk|n em m t Hp|d n em m t Hp];
      intros H; try discriminate H.
    + left. now split.
    + right. repeat split; eauto.
Qed.

(** ** The other two branches *)

(** X1: an OPTIONS request is answered without a body, with status 200
    and the three CORS headers, whatever else the request holds, and no
    call is made. *)
Theorem preflight_answer request env w :
  method request = "OPTIONS"%string ->
  exists r,
    run (fetch request env w) = (Normal r, [])
    /\ body r = None /\ status r = 200%Z
    /\ get_header "Access-Control-Allow-Origin" (headers r)
       = Some "https://beroea.tech"%string
    /\ get_header "Access-Control-Allow-Methods" (headers r)
       = Some "POST, OPTIONS"%string
    /\ get_header "Access-Control-Allow-Headers" (headers r)
       = Some "Content-Type"%string.
Proof.
  intros Hm. exists preflight_response.
  rewrite (fetch_options request env w Hm). repeat split.
Qed.

Lemma preflight_answer_witness :
  exists r,
    run (fetch options_request sample_env happy_world) = (Normal r, [])
    /\ body r = None /\ status r = 200%Z
    /\ get_header "Access-Control-Allow-Origin" (headers r)
       = Some "https://beroea.tech"%string
    /\ get_header "Access-Control-Allow-Methods" (headers r)
       = Some "POST, OPTIONS"%string
    /\ get_header "Access-Control-Allow-Headers" (headers r)
       = Some "Content-Type"%string.
Proof.
  apply (preflight_answer options_request sample_env happy_world).
  reflexivity.
Defined.

(** X2: a request whose method is neither OPTIONS nor POST is answered
    with status 405 and the text body [Method Not Allowed], and no call
    is made. *)
Theorem other_methods_not_allowed request env w :
  method request <> "OPTIONS"%string ->
  method request <> "POST"%string ->
  exists r,
    run (fetch request env w) = (Normal r, [])
    /\ status r = 405%Z
    /\ body r = Some (BodyText "Method Not Allowed").
Proof.
  intros Ho Hp. exists method_not_allowed.
  rewrite (fetch_other request env w Ho Hp). repeat split.
Qed.

Lemma other_methods_not_allowed_witness :
  exists r,
    run (fetch {| method := "GET"; request_json := Throw SyntaxError |}
           sample_env happy_world)
    = (Normal r, [])
    /\ status r = 405%Z
    /\ body r = Some (BodyText "Method Not Allowed").
Proof.
  apply (other_methods_not_allowed
           {| method := "GET"; request_json := Throw SyntaxError |}
           sample_env happy_world);
    discriminate.
Defined.

(** * Further properties of the handler *)

(** ** Every run, with its cause *)

Section Delivery.

Variables (env : Env) (w : World) (data : json).
Variables (name email message token : jsstring).

Lemma verification_throws e :
  verification env w token = Throw e ->
  run (verify_and_send data name email message token env w)
  = (Throw e, firstn 1 (calls env name email message token)).
Proof.
  unfold verification. intros H.
  destruct (global_fetch w siteverify (turnstile_init env token))
    as [res|e0] eqn:Hf.
  2:{ injection H as ->. now apply verify_fetch_throws. }
  destruct (res_json res) as [outcome|e0] eqn:Hr.
  2:{ injection H as ->. now apply verify_json_throws with res. }
  destruct outcome; try discriminate H.
  injection H as <-. now apply verify_json_null with res.
Qed.

Lemma verification_flag flag :
  verification env w token = Normal flag ->
  exists res outcome,
    global_fetch w siteverify (turnstile_init env token) = Normal res
    /\ res_json res = Normal outcome /\ outcome <> JNull
    /\ flag = field outcome "success".
Proof.
  unfold verification. intros H.
  destruct (global_fetch w siteverify (turnstile_init env token))
    as [res|e0] eqn:Hf; [|discriminate].
  destruct (res_json res) as [outcome|e0] eqn:Hr; [|discriminate].
  exists res, outcome.
  destruct outcome; try discriminate H; injection H as <-;
    (split; [reflexivity|]); (split; [exact Hr|]);
    (split; [discriminate | reflexivity]).
Qed.

Lemma verify_and_send_delivery :
  (exists r tr,
     run (verify_and_send data name email message token env w) = (Normal r, tr)
     /\ delivery env w data name email message token r tr)
  \/ (exists e tr,
        run (verify_and_send data name email message token env w)
        = (Throw e, tr)
        /\ delivery env w data name email message token
             (error_response 400 "Bad Request") tr).
Proof.
  destruct (verification env w token) as [flag|e] eqn:Hv.
  2:{ right. exists e. eexists. split; [now apply verification_throws|].
      now apply VerificationFailed with e. }
  destruct (verification_flag flag Hv) as (res & outcome & Hf & Hr & Hn & ->).
  destruct (truthy (field outcome "success")) eqn:Hs.
  2:{ left. eexists. eexists.
      split; [now apply verify_refused with res outcome|].
      now apply VerificationRefused with (field outcome "success"). }
  rewrite (verified_run data name email message token env w res outcome
             Hf Hr Hn Hs).
  destruct (WorkerMailer_connect w (mailer_options env)) as [mailer|e] eqn:Hc.
  2:{ right. exists e. eexists. split; [reflexivity|].
      now apply ConnectFailed with (field outcome "success") e. }
  destruct (mailer_send mailer (feedback_mail name email message))
    as [[]|e] eqn:Hsend.
  - left. eexists. eexists. split; [reflexivity|].
    now apply Delivered with (field outcome "success") mailer.
  - right. exists e. eexists. split; [reflexivity|].
    now apply SendFailed with (field outcome "success") mailer e.
Qed.

End Delivery.

Lemma fetch_handled request env w :
  exists r tr,
    run (fetch request env w) = (Normal r, tr) /\ handled request env w r tr.
Proof.
  destruct (String.eqb_spec (method request) "OPTIONS") as [Ho|Ho].
  { exists preflight_response, []. split;
      [now apply fetch_options | now constructor]. }
  destruct (String.eqb_spec (method request) "POST") as [Hp|Hp].
  2:{ exists method_not_allowed, []. split;
        [now apply fetch_other | now constructor]. }
  destruct (request_json request) as [data|e] eqn:Hj.
  2:{ exists (error_response 400 "Bad Request"), [].
      rewrite (fetch_post _ env w Hp). unfold run.
      rewrite (post_try_parse_error _ env w e [] Hj).
      split; [reflexivity | now apply HandledUnparsed with e]. }
  destruct (json_null_dec data) as [->|Hn].
  { exists (error_response 400 "Bad Request"), [].
    rewrite (fetch_post _ env w Hp). unfold run.
    rewrite (post_try_null _ env w [] Hj).
    split; [reflexivity | now apply HandledNullBody]. }
  rewrite (fetch_post_validate _ env w data Hp Hj Hn).
  destruct (validate data) as [why|name email message token] eqn:Hv.
  { exists (rejection why), [].
    split; [reflexivity | now apply HandledRejected with data]. }
  apply validate_valid in Hv.
  destruct (verify_and_send_delivery env w data name email message token)
    as [(r & tr & -> & Hd)|(e & tr & -> & Hd)];
    eexists; eexists; (split; [reflexivity|]);
    now apply HandledValid with data name email message token.
Qed.

(** ** What the calls presuppose *)

(** X3: the handler contacts a collaborator only on a POST whose body
    passed every validation step, and its calls are then an initial
    segment of: the verification call, the relay's connect, the send,
    the close; each at most once and in that order. *)
Theorem calls_need_valid_submission request env w :
  exists r tr,
    run (fetch request env w) = (Normal r, tr)
    /\ (tr = []
        \/ (method request = "POST"%string
            /\ exists data name email message token k,
                 request_json request = Normal data
                 /\ passes_validation data name email message token
                 /\ (1 <= k <= 4)%nat
                 /\ tr = firstn k (calls env name email message token))).
Proof.
  destruct (fetch_handled request env w) as (r & tr & Hrun & Hh).
  exists r, tr. split; [exact Hrun|].
  destruct Hh as [| | | | |data n e m t r tr Hp Hj Hv Hd]; try (now left).
  right. split; [exact Hp|]. exists data, n, e, m, t.
  assert (Hk : exists k, (1 <= k <= 4)%nat /\ tr = firstn k (calls env n e m t)).
  { destruct Hd;
      [exists 1 | exists 1 | exists 2 | exists 3 | exists 4];
      (split; [lia | reflexivity]). }
  destruct Hk as (k & Hk & ->). exists k. auto.
Qed.

(** X4: the relay is contacted only after a successful verification:
    when a run logs a connect, a send or a close, the body passed
    validation, the verification call returned, and the [success] flag
    of its reply was truthy. *)
Theorem relay_needs_successful_verification request env w :
  exists r tr,
    run (fetch request env w) = (Normal r, tr)
    /\ ((exists ev, In ev tr /\ relay_event ev = true) ->
        exists data name email message token res outcome,
          request_json request = Normal data
          /\ passes_validation data name email message token
          /\ global_fetch w siteverify (turnstile_init env token) = Normal res
          /\ res_json res = Normal outcome
          /\ truthy (field outcome "success") = true).
Proof.
  destruct (fetch_handled request env w) as (r & tr & Hrun & Hh).
  exists r, tr. split; [exact Hrun|].
  intros (ev & Hin & Hrelay).
  destruct Hh as [| | | | |data n e m t r tr Hp Hj Hv Hd];
    try (now destruct Hin).
  assert (Hflag : exists flag,
             verification env w t = Normal flag /\ truthy flag = true).
  { destruct Hd as [e0 Hvf|flag Hvf Hs|flag e0 Hvf Hs|flag ml e0 Hvf Hs
                   |flag ml Hvf Hs]; eauto;
      simpl in Hin; destruct Hin as [<-|[]]; discriminate Hrelay. }
  destruct Hflag as (flag & Hvf & Hs).
  destruct (verification_flag env w t flag Hvf)
    as (res & outcome & Hf & Hr & _ & ->).
  exists data, n, e, m, t, res, outcome. auto.
Qed.

(** X5: a 200 answer to a POST means the mail was handed over: the body
    passed validation, the verification succeeded, the relay connected
    and its send returned; the answer echoes the body and all four
    calls were made. *)
Theorem ok_means_mail_accepted request env w r tr :
  method request = "POST"%string ->
  run (fetch request env w) = (Normal r, tr) ->
  status r = 200%Z ->
  exists data name email message token res outcome mailer,
    request_json request = Normal data
    /\ passes_validation data name email message token
    /\ global_fetch w siteverify (turnstile_init env token) = Normal res
    /\ res_json res = Normal outcome
    /\ truthy (field outcome "success") = true
    /\ WorkerMailer_connect w (mailer_options env) = Normal mailer
    /\ mailer_send mailer (feedback_mail name email message) = Normal tt
    /\ r = success_response data
    /\ tr = calls env name email message token.
Proof.
  intros Hm Hrun Hst.
  destruct (fetch_handled request env w) as (r' & tr' & Hrun' & Hh).
  rewrite Hrun in Hrun'. injection Hrun' as <- <-.
  destruct Hh as [Ho|Ho Hp|e Hp Hj|Hp Hj|data why Hp Hj Hn Hv
                 |data n e m t r tr Hp Hj Hv Hd].
  - congruence.
  - congruence.
  - discriminate Hst.
  - discriminate Hst.
  - destruct why; discriminate Hst.
  - destruct Hd as [e0 Hvf|flag Hvf Hs|flag e0 Hvf Hs Hc|flag ml e0 Hvf Hs Hc Hsd
                   |flag ml Hvf Hs Hc Hsd]; try discriminate Hst.
    destruct (verification_flag env w t flag Hvf)
      as (res & outcome & Hf & Hr & _ & ->).
    exists data, n, e, m, t, res, outcome, ml. repeat split; auto; apply Hv.
Qed.

Lemma ok_means_mail_accepted_witness :
  exists data name email message token res outcome mailer,
    request_json (post (Normal ana)) = Normal data
    /\ passes_validation data name email message token
    /\ global_fetch happy_world siteverify (turnstile_init sample_env token)
       = Normal res
    /\ res_json res = Normal outcome
    /\ truthy (field outcome "success") = true
    /\ WorkerMailer_connect happy_world (mailer_options sample_env)
       = Normal mailer
    /\ mailer_send mailer (feedback_mail name email message) = Normal tt
    /\ success_response ana = success_response data
    /\ calls sample_env (lit "Ana") (lit "ana@example.com") (lit "Hello")
         (lit "tok123")
       = calls sample_env name email message token.
Proof.
  apply (ok_means_mail_accepted (post (Normal ana)) sample_env happy_world
           (success_response ana)
           (calls sample_env (lit "Ana") (lit "ana@example.com") (lit "Hello")
              (lit "tok123")));
    reflexivity.
Defined.

(** X6: a 403 answer means the verification was refused: the body
    passed validation, the verification call returned a reply other
    than [null] whose [success] flag is falsy, and no other call was
    made. *)
Theorem forbidden_means_refused request env w r tr :
  run (fetch request env w) = (Normal r, tr) ->
  status r = 403%Z ->
  method request = "POST"%string
  /\ exists data name email message token res outcome,
       request_json request = Normal data
       /\ passes_validation data name email message token
       /\ global_fetch w siteverify (turnstile_init env token) = Normal res
       /\ res_json res = Normal outcome
       /\ outcome <> JNull
       /\ truthy (field outcome "success") = false
       /\ r = error_response 403 "Turnstile verification failed"
       /\ tr = [EvFetch siteverify (turnstile_init env token)].
Proof.
  intros Hrun Hst.
  destruct (fetch_handled request env w) as (r' & tr' & Hrun' & Hh).
  rewrite Hrun in Hrun'. injection Hrun' as <- <-.
  destruct Hh as [Ho|Ho Hp|e Hp Hj|Hp Hj|data why Hp Hj Hn Hv
                 |data n e m t r tr Hp Hj Hv Hd];
    try discriminate Hst.
  - destruct why; discriminate Hst.
  - split; [exact Hp|].
    destruct Hd as [e0 Hvf|flag Hvf Hs|flag e0 Hvf Hs Hc|flag ml e0 Hvf Hs Hc Hsd
                   |flag ml Hvf Hs Hc Hsd]; try discriminate Hst.
    destruct (verification_flag env w t flag Hvf)
      as (res & outcome & Hf & Hr & Hn & ->).
    exists data, n, e, m, t, res, outcome. repeat split; auto; apply Hv.
Qed.

Lemma forbidden_means_refused_witness :
  method (post (Normal ana)) = "POST"%string
  /\ exists data name email message token res outcome,
       request_json (post (Normal ana)) = Normal data
       /\ passes_validation data name email message token
       /\ global_fetch (world unverified (relay (Normal tt))) siteverify
            (turnstile_init sample_env token) = Normal res
       /\ res_json res = Normal outcome
       /\ outcome <> JNull
       /\ truthy (field outcome "success") = false
       /\ error_response 403 "Turnstile verification failed"
          = error_response 403 "Turnstile verification failed"
       /\ [EvFetch siteverify (turnstile_init sample_env (lit "tok123"))]
          = [EvFetch siteverify (turnstile_init sample_env token)].
Proof.
  apply (forbidden_means_refused (post (Normal ana)) sample_env
           (world unverified (relay (Normal tt)))
           (error_response 403 "Turnstile verification failed")
           [EvFetch siteverify (turnstile_init sample_env (lit "tok123"))]);
    reflexivity.
Defined.

(** X7: the relay connection is closed exactly when the request
    succeeds: a run logs the close if and only if it answers a POST with
    200, so a connection whose send throws is left open. *)
Theorem close_iff_success request env w :
  exists r tr,
    run (fetch request env w) = (Normal r, tr)
    /\ (In EvClose tr <-> method request = "POST"%string /\ status r = 200%Z).
Proof.
  destruct (fetch_handled request env w) as (r & tr & Hrun & Hh).
  exists r, tr. split; [exact Hrun|].
  destruct Hh as [Ho|Ho Hp|e Hp Hj|Hp Hj|data why Hp Hj Hn Hv
                 |data n e m t r tr Hp Hj Hv Hd].
  - split; [intros [] | intros [Hp _]; congruence].
  - split; [intros [] | intros [Hp' _]; congruence].
  - split; [intros [] | intros [_ H]; discriminate H].
  - split; [intros [] | intros [_ H]; discriminate H].
  - split; [intros [] | intros [_ H]; destruct why; discriminate H].
  - destruct Hd as [e0 Hvf|flag Hvf Hs|flag e0 Hvf Hs Hc|flag ml e0 Hvf Hs Hc Hsd
                   |flag ml Hvf Hs Hc Hsd]; simpl.
    1-4: split;
      [ intros Hin;
        repeat (destruct Hin as [Hin|Hin]; [discriminate Hin|]); destruct Hin
      | intros [_ Hst]; discriminate Hst ].
    split; [intros _; now split | intros _; do 3 right; now left].
Qed.

(** ** The order of the validation steps *)

Lemma truthy_not_null data k : truthy (field data k) = true -> data <> JNull.
Proof. intros H ->. discriminate H. Qed.

(** X8: the type check comes before the length and e-mail checks: on a
    POST whose [name], [email] and [message] are all truthy, if any of
    the four fields is not a string the answer is HTTP 400
    [{error: "Invalid field types"}] with no call made, whatever the
    lengths and the e-mail. *)
Theorem invalid_types_rejected request env w data :
  method request = "POST"%string ->
  request_json request = Normal data ->
  truthy (field data "name") = true ->
  truthy (field data "email") = true ->
  truthy (field data "message") = true ->
  as_string (field data "name") = None
  \/ as_string (field data "email") = None
  \/ as_string (field data "message") = None
  \/ as_string (field data "token") = None ->
  run (fetch request env w)
  = (Normal (error_response 400 "Invalid field types"), []).
Proof.
  intros Hm Hj Tn Te Tg Hty.
  rewrite (fetch_post_validate _ env w data Hm Hj (truthy_not_null _ _ Tn)).
  unfold validate. rewrite Tn, Te, Tg. simpl andb. cbv iota.
  destruct (as_string (field data "name")),
           (as_string (field data "email")),
           (as_string (field data "message")),
           (as_string (field data "token")); try reflexivity.
  destruct Hty as [H|[H|[H|H]]]; discriminate H.
Qed.

Lemma invalid_types_rejected_witness :
  run (fetch (post (Normal boolean_name)) sample_env happy_world)
  = (Normal (error_response 400 "Invalid field types"), []).
Proof.
  apply (invalid_types_rejected (post (Normal boolean_name)) sample_env
           happy_world boolean_name); try reflexivity.
  left. reflexivity.
Defined.

Lemma delivery_not_too_long env w data name email message token r tr :
  delivery env w data name email message token r tr ->
  r <> error_response 400 "Input too long".
Proof. intros H; destruct H; discriminate. Qed.

(** X9: the length bounds are exact: on a POST whose four fields are
    strings, [name], [email] and [message] non-empty, the answer is
    [{error: "Input too long"}] if and only if the name has more than
    100 characters or the message more than 1000; a name of exactly 100
    and a message of exactly 1000 pass. *)
Theorem too_long_iff request env w data name email message token :
  method request = "POST"%string ->
  request_json request = Normal data ->
  string_field data "name" name -> name <> [] ->
  string_field data "email" email -> email <> [] ->
  string_field data "message" message -> message <> [] ->
  string_field data "token" token ->
  (fst (run (fetch request env w))
   = Normal (error_response 400 "Input too long")
   <-> (str_length name > 100 \/ str_length message > 1000)%Z).
Proof.
  unfold string_field. intros Hm Hj Hn Hn' He He' Hg Hg' Ht.
  destruct (fetch_handled request env w) as (r & tr & Hrun & Hh).
  rewrite Hrun. simpl fst.
  assert (Hnull : data <> JNull) by exact (field_not_null _ _ _ Hn).
  assert (Hval : validate data
                 = if (str_length name >? 100)%Z
                      || (str_length message >? 1000)%Z
                   then Rejected TooLong
                   else if emailRegex_test email
                        then Valid name email message token
                        else Rejected BadEmail).
  { unfold validate. now rewrite Hn, He, Hg, Ht, !truthy_string by assumption. }
  assert (Hlong : (str_length name >? 100)%Z || (str_length message >? 1000)%Z
                  = true
                  <-> (str_length name > 100 \/ str_length message > 1000)%Z).
  { rewrite orb_true_iff, !Z.gtb_ltb, !Z.ltb_lt. lia. }
  rewrite <- Hlong.
  destruct Hh as [Ho|Ho Hp|e Hp Hj'|Hp Hj'|data' why Hp Hj' Hn0 Hv
                 |data' n e m t r tr Hp Hj' Hv Hd];
    try congruence.
  - rewrite Hj in Hj'. injection Hj' as <-. rewrite Hval in Hv.
    destruct ((str_length name >? 100)%Z || (str_length message >? 1000)%Z).
    + injection Hv as <-. split; reflexivity.
    + destruct (emailRegex_test email); [discriminate Hv|].
      injection Hv as <-. split; discriminate.
  - rewrite Hj in Hj'. injection Hj' as <-.
    apply validate_passes in Hv. rewrite Hval in Hv.
    destruct ((str_length name >? 100)%Z || (str_length message >? 1000)%Z);
      [discriminate Hv|].
    split; [|discriminate].
    intros H. injection H as H.
    now apply delivery_not_too_long in Hd.
Qed.

Lemma too_long_iff_witness :
  fst (run (fetch (post (Normal (submission (repeat 97%N 100)
                                   (lit "ana@example.com") (lit "Hello")
                                   (lit "tok123"))))
             sample_env happy_world))
  = Normal (error_response 400 "Input too long")
  <-> (str_length (repeat 97%N 100) > 100
       \/ str_length (lit "Hello") > 1000)%Z.
Proof.
  apply (too_long_iff _ sample_env happy_world
           (submission (repeat 97%N 100) (lit "ana@example.com") (lit "Hello")
              (lit "tok123"))
           (repeat 97%N 100) (lit "ana@example.com") (lit "Hello")
           (lit "tok123"));
    try reflexivity; discriminate.
Defined.

(** X10: a body that parses to an array, a string, a number or a
    boolean has none of the fields: a POST with such a body is answered
    HTTP 400 [{error: "Missing required fields"}] with no call made. *)
Theorem non_object_body_rejected request env w data :
  method request = "POST"%string ->
  request_json request = Normal data ->
  non_object data = true ->
  run (fetch request env w)
  = (Normal (error_response 400 "Missing required fields"), []).
Proof.
  intros Hm Hj Hno.
  assert (Hn : data <> JNull) by (intros ->; discriminate Hno).
  rewrite (fetch_post_validate _ env w data Hm Hj Hn).
  destruct data; try discriminate Hno; reflexivity.
Qed.

Lemma non_object_body_rejected_witness :
  run (fetch (post (Normal (JArray [ana]))) sample_env happy_world)
  = (Normal (error_response 400 "Missing required fields"), []).
Proof.
  apply (non_object_body_rejected (post (Normal (JArray [ana]))) sample_env
           happy_world (JArray [ana]));
    reflexivity.
Defined.

(** ** What the e-mail check accepts *)

Lemma plain_char_not_at l :
  forallb plain_char l = true -> count_at l = 0.
Proof.
  unfold count_at. induction l as [|c l IH]; simpl; [reflexivity|].
  intros H. apply andb_prop in H as [Hc Hl].
  unfold plain_char in Hc. apply andb_prop in Hc as [_ Hc].
  destruct (N.eq_dec c 64) as [->|_]; [discriminate Hc | now apply IH].
Qed.

Lemma plain_char_not_space l :
  forallb plain_char l = true -> no_whitespace l.
Proof.
  unfold no_whitespace. induction l as [|c l IH]; simpl; [reflexivity|].
  intros H. apply andb_prop in H as [Hc Hl].
  unfold plain_char in Hc. apply andb_prop in Hc as [Hc _].
  now rewrite Hc, IH.
Qed.

Lemma nonempty_length {A} (l : list A) : l <> [] -> 1 <= List.length l.
Proof. destruct l; [congruence | simpl; lia]. Qed.

Lemma accepted_no_whitespace s : emailRegex_test s = true -> no_whitespace s.
Proof.
  intros H. apply emailRegex_test_shape in H
    as (l & d & t & -> & [_ Hl] & [_ Hd] & [_ Ht]).
  unfold no_whitespace. rewrite !forallb_app.
  rewrite (plain_char_not_space _ Hl), (plain_char_not_space _ Hd),
    (plain_char_not_space _ Ht). reflexivity.
Qed.

(** X11: an address the e-mail check accepts has exactly one ['@'], no
    whitespace character, and at least five characters. *)
Theorem accepted_email_one_at_no_space s :
  emailRegex_test s = true ->
  count_at s = 1 /\ no_whitespace s /\ 5 <= List.length s.
Proof.
  intros H. split; [|split; [now apply accepted_no_whitespace|]];
    apply emailRegex_test_shape in H
      as (l & d & t & -> & [Nl Hl] & [Nd Hd] & [Nt Ht]).
  - unfold count_at. rewrite !count_occ_app.
    fold (count_at l) (count_at d) (count_at t).
    rewrite (plain_char_not_at _ Hl), (plain_char_not_at _ Hd),
      (plain_char_not_at _ Ht). reflexivity.
  - apply nonempty_length in Nl, Nd, Nt. unfold code_unit in *.
    rewrite length_app. simpl. rewrite length_app. simpl. lia.
Qed.

Lemma accepted_email_one_at_no_space_witness :
  count_at (lit "ana@example.com") = 1
  /\ no_whitespace (lit "ana@example.com")
  /\ 5 <= List.length (lit "ana@example.com").
Proof.
  apply (accepted_email_one_at_no_space (lit "ana@example.com")).
  reflexivity.
Defined.

(** X12: the check accepts exactly the strings made of a non-empty run
    of characters that are neither whitespace nor ['@'], an ['@'], and
    a domain of such characters holding a ['.'] that is neither its
    first nor its last character; dots elsewhere, in the local part or
    the domain, are allowed. *)
Theorem accepted_iff_dotted_domain s :
  emailRegex_test s = true <->
  exists l dom, s = l ++ 64%N :: dom /\ plain_run l /\ dotted_domain dom.
Proof.
  rewrite emailRegex_test_shape. unfold email_shape, dotted_domain. split.
  - intros (l & d & t & -> & Hl & [Nd Hd] & [Nt Ht]).
    exists l, (d ++ [46%N] ++ t). split; [reflexivity|]. split; [exact Hl|].
    split.
    + rewrite !forallb_app, Hd, Ht. reflexivity.
    + exists (List.length d).
      apply nonempty_length in Nd, Nt. unfold code_unit in *.
      rewrite !length_app. simpl.
      split; [lia|]. split; [lia|].
      rewrite nth_error_app2 by lia. now rewrite Nat.sub_diag.
  - intros (l & dom & -> & Hl & Hdom & i & Hi & Hlen & Hnth).
    apply nth_error_split in Hnth as (d & t & -> & Hd).
    rewrite forallb_app in Hdom. apply andb_prop in Hdom as [Pd Pt].
    simpl in Pt.
    rewrite length_app in Hlen. simpl in Hlen.
    exists l, d, t. split; [reflexivity|]. split; [exact Hl|].
    split; split; auto.
    + intros ->. simpl in Hd. lia.
    + intros ->. simpl in Hlen. lia.
Qed.

(** ** The mail bodies *)

Lemma split_at_first_unique {A} (x : A) (l1 l1' r r' : list A) :
  ~ In x l1 -> ~ In x l1' ->
  l1 ++ x :: r = l1' ++ x :: r' -> l1 = l1' /\ r = r'.
Proof.
  revert l1'. induction l1 as [|a l1 IH]; intros [|a' l1'] H1 H1' E;
    simpl in *.
  - injection E as ->. auto.
  - injection E as <- _. tauto.
  - injection E as -> _. tauto.
  - injection E as <- E.
    destruct (IH l1') as [-> ->]; auto.
Qed.

Lemma split_at_last_unique {A} (x : A) (l r l' r' : list A) :
  ~ In x r -> ~ In x r' ->
  l ++ x :: r = l' ++ x :: r' -> l = l' /\ r = r'.
Proof.
  intros Hr Hr' E. apply (f_equal (@rev A)) in E.
  rewrite !rev_app_distr in E. simpl in E. rewrite <- !app_assoc in E.
  simpl in E.
  apply split_at_first_unique in E as [E1 E2];
    try (rewrite <- in_rev; assumption).
  apply (f_equal (@rev A)) in E1, E2. rewrite !rev_involutive in E1, E2.
  auto.
Qed.

Lemma accepted_has_no_space s : emailRegex_test s = true -> ~ In 32%N s.
Proof.
  intros H Hin. apply accepted_no_whitespace in H.
  unfold no_whitespace in H. rewrite forallb_forall in H.
  specialize (H _ Hin). discriminate H.
Qed.

(** X13: for addresses that pass the e-mail check, the plain-text body
    of the mail determines the message and the sender address, and so
    does the HTML body: two mails with the same text body, or the same
    HTML body, carry the same message and the same address. *)
Theorem mail_body_determines_message_and_sender
    name email message name' email' message' :
  emailRegex_test email = true ->
  emailRegex_test email' = true ->
  mail_text (feedback_mail name email message)
  = mail_text (feedback_mail name' email' message')
  \/ mail_html (feedback_mail name email message)
     = mail_html (feedback_mail name' email' message') ->
  message = message' /\ email = email'.
Proof.
  intros He He' [E|E]; apply accepted_has_no_space in He, He';
    cbn [mail_text mail_html feedback_mail] in E; apply app_inv_head in E.
  - assert (E' : (message ++ [32; 10; 10]%N) ++ 32%N :: email
                 = (message' ++ [32; 10; 10]%N) ++ 32%N :: email')
      by (rewrite <- !app_assoc; exact E).
    apply split_at_last_unique in E' as [E' ->]; auto.
    apply app_inv_tail in E'. auto.
  - rewrite !app_assoc in E. apply app_inv_tail in E.
    assert (E' : (message ++ lit "</p> <p>Sender:") ++ 32%N :: email
                 = (message' ++ lit "</p> <p>Sender:") ++ 32%N :: email')
      by (rewrite <- !app_assoc; rewrite <- !app_assoc in E; exact E).
    apply split_at_last_unique in E' as [E' ->]; auto.
    apply app_inv_tail in E'. auto.
Qed.

Lemma mail_body_determines_message_and_sender_witness :
  lit "Hello" = lit "Hello" /\ lit "ana@example.com" = lit "ana@example.com".
Proof.
  apply (mail_body_determines_message_and_sender
           (lit "Ana") (lit "ana@example.com") (lit "Hello")
           (lit "Bob") (lit "ana@example.com") (lit "Hello"));
    try reflexivity.
  left. reflexivity.
Defined.

(** ** What an answer can hold *)

(** X19: an answer holds nothing of the environment, of the replies of
    the collaborators or of the exception caught: it is one of eight
    fixed answers, or the 200 answer that echoes the parsed body of the
    request. *)
Theorem answer_is_fixed_or_echo request env w :
  exists r tr,
    run (fetch request env w) = (Normal r, tr)
    /\ (In r fixed_answers
        \/ exists data,
             request_json request = Normal data /\ r = success_response data).
Proof.
  destruct (fetch_handled request env w) as (r & tr & Hrun & Hh).
  exists r, tr. split; [exact Hrun|].
  destruct Hh as [Ho|Ho Hp|e Hp Hj|Hp Hj|data why Hp Hj Hn Hv
                 |data n e m t r tr Hp Hj Hv Hd].
  - left. simpl. tauto.
  - left. simpl. tauto.
  - left. simpl. tauto.
  - left. simpl. tauto.
  - left. destruct why; simpl; tauto.
  - destruct Hd; [left; simpl; tauto ..|].
    right. exists data. auto.
Qed.

(** * The first revision *)

Section FirstRevisionFacts.

Variable Number_toString : spec_float -> jsstring.

Local Abbreviation ToString := (FirstRevision.ToString Number_toString).
Local Abbreviation fetch1 := (FirstRevision.fetch Number_toString).
Local Abbreviation post_try1 := (FirstRevision.post_try Number_toString).

Lemma first_fetch_post request env w :
  method request = "POST"%string ->
  run (fetch1 request env w)
  = match run (post_try1 request env w) with
    | (Normal r, tr) => (Normal r, tr)
    | (Throw _, tr) => (Normal (error_response 400 "Bad Request"), tr)
    end.
Proof.
  intros H. unfold run, FirstRevision.fetch, try_catch. rewrite H.
  change (String.eqb "POST" "OPTIONS") with false.
  change (String.eqb "POST" "POST") with true. cbv beta iota.
  destruct (FirstRevision.post_try Number_toString request env w [])
    as [[r|e] tr]; reflexivity.
Qed.

Lemma first_post_try_unparsed request env w e :
  request_json request = Throw e ->
  run (post_try1 request env w) = (Throw e, []).
Proof.
  intros Hj. unfold run, FirstRevision.post_try, bind, await. now rewrite Hj.
Qed.

Lemma first_post_try_null request env w :
  request_json request = Normal JNull ->
  run (post_try1 request env w) = (Throw TypeError, []).
Proof.
  intros Hj. unfold run, FirstRevision.post_try, bind, await. now rewrite Hj.
Qed.

Lemma first_post_try_missing request env w data :
  request_json request = Normal data -> data <> JNull ->
  missing_field data ->
  run (post_try1 request env w)
  = (Normal (error_response 400 "Missing required fields"), []).
Proof.
  intros Hj Hn Hmiss. unfold run, FirstRevision.post_try, bind, await.
  rewrite Hj. cbv beta iota. rewrite (prop_not_null _ _ _ Hn).
  destruct (truthy (field data "name")) eqn:Tn; [|reflexivity].
  change (negb true) with false; cbv beta iota.
  rewrite (prop_not_null _ _ _ Hn).
  destruct (truthy (field data "email")) eqn:Te; [|reflexivity].
  change (negb true) with false; cbv beta iota.
  rewrite (prop_not_null _ _ _ Hn).
  destruct (truthy (field data "message")) eqn:Tm; [|reflexivity].
  destruct Hmiss as [H|[H|H]]; congruence.
Qed.

Lemma truthy_fields_not_null data name email message :
  truthy_fields data name email message -> data <> JNull.
Proof. intros (H & _). exact (field_not_null _ _ _ H). Qed.

(** With the three fields truthy, the run is decided by the relay and
    by the conversions of the fields. *)
Lemma first_post_try_truthy request env w data name email message :
  request_json request = Normal data ->
  truthy_fields data name email message ->
  run (post_try1 request env w)
  = match WorkerMailer_connect w (mailer_options env) with
    | Throw err => (Throw err, [EvConnect (mailer_options env)])
    | Normal mailer =>
        match ToString name with
        | Throw err => (Throw err, [EvConnect (mailer_options env)])
        | Normal n =>
            match ToString message with
            | Throw err => (Throw err, [EvConnect (mailer_options env)])
            | Normal m =>
                match ToString email with
                | Throw err => (Throw err, [EvConnect (mailer_options env)])
                | Normal e =>
                    match mailer_send mailer (feedback_mail n e m) with
                    | Throw err =>
                        (Throw err,
                         [EvConnect (mailer_options env);
                          EvSend (feedback_mail n e m)])
                    | Normal _ =>
                        (Normal (success_response data),
                         [EvConnect (mailer_options env);
                          EvSend (feedback_mail n e m);
                          EvClose])
                    end
                end
            end
        end
    end.
Proof.
  intros Hj Hf. pose proof (truthy_fields_not_null _ _ _ _ Hf) as Hn.
  destruct Hf as (Fn & Tn & Fe & Te & Fm & Tm).
  unfold run, FirstRevision.post_try, bind, await, call.
  rewrite Hj. cbv beta iota.
  rewrite (prop_not_null _ _ _ Hn), Fn, Tn.
  change (negb true) with false; cbv beta iota.
  rewrite (prop_not_null _ _ _ Hn), Fe, Te.
  change (negb true) with false; cbv beta iota.
  rewrite (prop_not_null _ _ _ Hn), Fm, Tm.
  change (negb true) with false; cbv beta iota.
  simpl app.
  destruct (WorkerMailer_connect w (mailer_options env)) as [mailer|err];
    [|reflexivity].
  unfold FirstRevision.template, await.
  destruct (FirstRevision.ToString Number_toString name) as [n|err];
    [|reflexivity].
  destruct (FirstRevision.ToString Number_toString message) as [m|err];
    [|reflexivity].
  destruct (FirstRevision.ToString Number_toString email) as [e|err];
    [|reflexivity].
  match goal with
  | |- context [mailer_send mailer ?mail] =>
      change mail with (feedback_mail n e m)
  end.
  destruct (mailer_send mailer (feedback_mail n e m)) as [[]|err];
    reflexivity.
Qed.

Lemma missing_or_truthy data :
  missing_field data
  \/ exists name email message, truthy_fields data name email message.
Proof.
  unfold missing_field, truthy_fields.
  destruct (field data "name") as [n|]; [|left; left; reflexivity].
  destruct (truthy (Some n)) eqn:Tn; [|left; left; reflexivity].
  destruct (field data "email") as [e|]; [|left; right; left; reflexivity].
  destruct (truthy (Some e)) eqn:Te; [|left; right; left; reflexivity].
  destruct (field data "message") as [m|]; [|left; right; right; reflexivity].
  destruct (truthy (Some m)) eqn:Tm; [|left; right; right; reflexivity].
  right. exists n, e, m. auto 10.
Qed.

End FirstRevisionFacts.

(** On non-empty strings the first revision sends the mail of the
    second. *)
Lemma first_revision_on_strings
    render request env w data n e m mailer :
  method request = "POST"%string ->
  request_json request = Normal data ->
  string_field data "name" n -> n <> [] ->
  string_field data "email" e -> e <> [] ->
  string_field data "message" m -> m <> [] ->
  WorkerMailer_connect w (mailer_options env) = Normal mailer ->
  mailer_send mailer (feedback_mail n e m) = Normal tt ->
  run (FirstRevision.fetch render request env w)
  = (Normal (success_response data), tl (calls env n e m []%list)).
Proof.
  unfold string_field. intros Hm Hj Fn Nn Fe Ne Fg Ng Hc Hs.
  rewrite (first_fetch_post render request env w Hm).
  rewrite (first_post_try_truthy render request env w data
             (JString n) (JString e) (JString m) Hj).
  - simpl FirstRevision.ToString. now rewrite Hc, Hs.
  - unfold truthy_fields. rewrite !truthy_string by assumption. auto 10.
Qed.

(** X14: the first revision checks only that [name], [email] and
    [message] are truthy: whatever their types, lengths and shape, and
    without a token or a verification call, it connects to the relay,
    sends the mail built from the fields converted to strings, closes
    the connection and answers 200 with the body echoed. *)
Theorem first_revision_sends_converted_fields
    render request env w data name email message n e m mailer :
  method request = "POST"%string ->
  request_json request = Normal data ->
  truthy_fields data name email message ->
  FirstRevision.ToString render name = Normal n ->
  FirstRevision.ToString render email = Normal e ->
  FirstRevision.ToString render message = Normal m ->
  WorkerMailer_connect w (mailer_options env) = Normal mailer ->
  mailer_send mailer (feedback_mail n e m) = Normal tt ->
  run (FirstRevision.fetch render request env w)
  = (Normal (success_response data),
     [EvConnect (mailer_options env); EvSend (feedback_mail n e m); EvClose]).
Proof.
  intros Hm Hj Hf Cn Ce Cm Hc Hs.
  rewrite (first_fetch_post render request env w Hm).
  rewrite (first_post_try_truthy render request env w data name email message
             Hj Hf).
  now rewrite Hc, Cn, Cm, Ce, Hs.
Qed.

Lemma first_revision_sends_converted_fields_witness :
  run (FirstRevision.fetch sample_rendering (post (Normal untyped_submission))
         sample_env happy_world)
  = (Normal (success_response untyped_submission),
     [EvConnect (mailer_options sample_env);
      EvSend (feedback_mail (lit "true") (lit "not an address") (lit "a,,b,0"));
      EvClose]).
Proof.
  apply (first_revision_sends_converted_fields sample_rendering
           (post (Normal untyped_submission)) sample_env happy_world
           untyped_submission
           (JBool true) (JString (lit "not an address"))
           (JArray [JString (lit "a"); JNull;
                    JArray [JString (lit "b"); JNumber (S754_zero false)]])
           (lit "true") (lit "not an address") (lit "a,,b,0")
           {| mailer_send := fun _ => Normal tt |});
    try reflexivity.
  unfold truthy_fields. repeat split.
Defined.

(** X15: in the first revision a truthy field that cannot be converted
    to a string (an object with a field of its own named [toString])
    makes the request fail after the relay has been connected: the
    answer is 400 [Bad Request], nothing is sent and the connection is
    not closed. *)
Theorem first_revision_unconvertible_field
    render request env w data name email message mailer :
  method request = "POST"%string ->
  request_json request = Normal data ->
  truthy_fields data name email message ->
  WorkerMailer_connect w (mailer_options env) = Normal mailer ->
  (exists err, FirstRevision.ToString render name = Throw err)
  \/ (exists err, FirstRevision.ToString render message = Throw err)
  \/ (exists err, FirstRevision.ToString render email = Throw err) ->
  run (FirstRevision.fetch render request env w)
  = (Normal (error_response 400 "Bad Request"),
     [EvConnect (mailer_options env)]).
Proof.
  intros Hm Hj Hf Hc Hthrow.
  rewrite (first_fetch_post render request env w Hm).
  rewrite (first_post_try_truthy render request env w data name email message
             Hj Hf), Hc.
  destruct (FirstRevision.ToString render name) as [n|]; [|reflexivity].
  destruct (FirstRevision.ToString render message) as [m|]; [|reflexivity].
  destruct (FirstRevision.ToString render email) as [e|]; [|reflexivity].
  destruct Hthrow as [[err H]|[[err H]|[err H]]]; discriminate H.
Qed.

Lemma first_revision_unconvertible_field_witness :
  run (FirstRevision.fetch sample_rendering (post (Normal masked_name))
         sample_env happy_world)
  = (Normal (error_response 400 "Bad Request"),
     [EvConnect (mailer_options sample_env)]).
Proof.
  apply (first_revision_unconvertible_field sample_rendering
           (post (Normal masked_name)) sample_env happy_world masked_name
           (JObject [(lit "toString", JNull)])
           (JString (lit "ana@example.com")) (JString (lit "Hello"))
           {| mailer_send := fun _ => Normal tt |});
    try reflexivity.
  - unfold truthy_fields. repeat split.
  - left. exists TypeError. reflexivity.
Defined.

(** X16: the first revision never contacts the verification service:
    every call of every run is a call to the relay; and its answers
    have status 200, 400 or 405, never 403. *)
Theorem first_revision_never_verifies render request env w :
  exists r tr,
    run (FirstRevision.fetch render request env w) = (Normal r, tr)
    /\ (forall ev, In ev tr -> relay_event ev = true)
    /\ In (status r) [200; 400; 405]%Z.
Proof.
  destruct (String.eqb_spec (method request) "OPTIONS") as [Ho|Ho].
  { unfold run, FirstRevision.fetch. rewrite Ho.
    eexists. exists []. split; [reflexivity|].
    split; [intros ev []|simpl; tauto]. }
  destruct (String.eqb_spec (method request) "POST") as [Hp|Hp].
  2:{ unfold run, FirstRevision.fetch.
      apply String.eqb_neq in Ho, Hp. rewrite Ho, Hp.
      eexists. exists []. split; [reflexivity|].
      split; [intros ev []|simpl; tauto]. }
  rewrite (first_fetch_post render request env w Hp).
  destruct (request_json request) as [data|e] eqn:Hj.
  2:{ rewrite (first_post_try_unparsed render request env w e Hj).
      eexists. exists []. split; [reflexivity|].
      split; [intros ev []|simpl; tauto]. }
  destruct (json_null_dec data) as [->|Hn].
  { rewrite (first_post_try_null render request env w Hj).
    eexists. exists []. split; [reflexivity|].
    split; [intros ev []|simpl; tauto]. }
  destruct (missing_or_truthy data) as [Hmiss|(vn & ve & vm & Hf)].
  { rewrite (first_post_try_missing render request env w data Hj Hn Hmiss).
    eexists. exists []. split; [reflexivity|].
    split; [intros ev []|simpl; tauto]. }
  rewrite (first_post_try_truthy render request env w data vn ve vm Hj Hf).
  destruct (WorkerMailer_connect w (mailer_options env)) as [mailer|err].
  2:{ eexists. eexists. split; [reflexivity|].
      split; [intros ev [<-|[]]; reflexivity | simpl; tauto]. }
  destruct (FirstRevision.ToString render vn) as [n|err].
  2:{ eexists. eexists. split; [reflexivity|].
      split; [intros ev [<-|[]]; reflexivity | simpl; tauto]. }
  destruct (FirstRevision.ToString render vm) as [m|err].
  2:{ eexists. eexists. split; [reflexivity|].
      split; [intros ev [<-|[]]; reflexivity | simpl; tauto]. }
  destruct (FirstRevision.ToString render ve) as [e|err].
  2:{ eexists. eexists. split; [reflexivity|].
      split; [intros ev [<-|[]]; reflexivity | simpl; tauto]. }
  destruct (mailer_send mailer (feedback_mail n e m)) as [[]|err].
  - eexists. eexists. split; [reflexivity|].
    split; [intros ev [<-|[<-|[<-|[]]]]; reflexivity | simpl; tauto].
  - eexists. eexists. split; [reflexivity|].
    split; [intros ev [<-|[<-|[]]]; reflexivity | simpl; tauto].
Qed.

(** X17: the two revisions agree on what the second accepts: when the
    second revision answers a POST with 200, the first revision, facing
    the same request and relay, gives the same answer and makes the
    same relay calls, the verification call left out. *)
Theorem revisions_agree_on_success render request env w r tr :
  method request = "POST"%string ->
  run (fetch request env w) = (Normal r, tr) ->
  status r = 200%Z ->
  run (FirstRevision.fetch render request env w) = (Normal r, tl tr).
Proof.
  intros Hm Hrun Hst.
  destruct (fetch_handled request env w) as (r' & tr' & Hrun' & Hh).
  rewrite Hrun in Hrun'. injection Hrun' as <- <-.
  destruct Hh as [Ho|Ho Hp|e Hp Hj|Hp Hj|data why Hp Hj Hn Hv
                 |data n e m t r tr Hp Hj Hv Hd];
    try congruence; try discriminate Hst.
  { destruct why; discriminate Hst. }
  destruct Hd as [e0 Hvf|flag Hvf Hs|flag e0 Hvf Hs Hc|flag ml e0 Hvf Hs Hc Hsd
                 |flag ml Hvf Hs Hc Hsd]; try discriminate Hst.
  destruct Hv as (Fn & Nn & Fe & Ne & Fg & Ng & _).
  apply (first_revision_on_strings render request env w data
           n e m ml); auto.
Qed.

Lemma revisions_agree_on_success_witness :
  run (FirstRevision.fetch sample_rendering (post (Normal ana)) sample_env
         happy_world)
  = (Normal (success_response ana),
     tl (calls sample_env (lit "Ana") (lit "ana@example.com") (lit "Hello")
           (lit "tok123"))).
Proof.
  apply (revisions_agree_on_success sample_rendering (post (Normal ana))
           sample_env happy_world);
    reflexivity.
Defined.

(** X18: in the first revision too, a POST whose parsed body is not
    [null] and lacks (or has a falsy value for) one of [name], [email],
    [message] is answered HTTP 400 [{error: "Missing required fields"}]
    before the relay is contacted. *)
Theorem first_revision_missing_fields render request env w data :
  method request = "POST"%string ->
  request_json request = Normal data ->
  data <> JNull ->
  missing_field data ->
  run (FirstRevision.fetch render request env w)
  = (Normal (error_response 400 "Missing required fields"), []).
Proof.
  intros Hm Hj Hn Hmiss.
  rewrite (first_fetch_post render request env w Hm).
  now rewrite (first_post_try_missing render request env w data Hj Hn Hmiss).
Qed.

Lemma first_revision_missing_fields_witness :
  run (FirstRevision.fetch sample_rendering (post (Normal no_message))
         sample_env happy_world)
  = (Normal (error_response 400 "Missing required fields"), []).
Proof.
  apply (first_revision_missing_fields sample_rendering
           (post (Normal no_message)) sample_env happy_world no_message);
    try reflexivity; try discriminate.
  right; right. reflexivity.
Defined.
